(** * GEET (Google Earth Engine Toolbox), geet.js 0.1.8

    A shallow embedding of [src/geet.js].  The library is a set of
    request builders: every function composes calls against the Earth
    Engine client API and hands back the resulting client-side object.
    The Earth Engine objects are opaque handles to a lazily evaluated
    remote computation, so they are embedded as the term of calls that
    built them (type [ee]); plain JavaScript values are embedded as
    [val].  The side effects of the code ([print], [Map.addLayer],
    [Export.image.toDrive]) and the module-level [COLOR] object are
    threaded through a state monad. *)

From Stdlib Require Import String Ascii List ZArith QArith Bool Lia.
From Stdlib Require Import DecimalString DecimalPos DecimalZ.
From stdpp Require Import gmap strings.
Import ListNotations.

Set Warnings "-register-all".
Local Open Scope string_scope.

(** ** JavaScript values and Earth Engine handles *)

(** [ee] is a client-side Earth Engine object: an input handle owned by
    the caller, the result of a static API function such as
    [ee.Reducer.max()] or [ee.Image(x)], or the result of a method call
    on another Earth Engine object.  [val] is a JavaScript value; the
    numbers of the file are decimal literals that are passed on to the
    platform, so they are kept as exact rationals. *)
Inductive ee : Type :=
| Handle (name : string)
| Static (path : string) (args : list val)
| Call (recv : ee) (method : string) (args : list val)
with val : Type :=
| VUndef
| VNull
| VBool (b : bool)
| VNum (q : Q)
| VStr (s : string)
| VArr (items : list val)
| VObj (fields : list (string * val))
| VFun (params : list string) (body : val)
| VEE (e : ee).

(** [typeof v !== 'undefined'] *)
Definition defined (v : val) : bool :=
  match v with VUndef => false | _ => true end.

(** [v != null] (loose inequality: false for [undefined] and [null]) *)
Definition not_nullish (v : val) : bool :=
  match v with VUndef | VNull => false | _ => true end.

(** [typeof v !== 'undefined' ? v : d] *)
Definition default (v d : val) : val :=
  if defined v then v else d.

(** The value is an Earth Engine object (a handle to a remote
    computation), as opposed to [undefined] or a plain JavaScript
    value. *)
Definition is_handle (v : val) : bool :=
  match v with VEE _ => true | _ => false end.

(** *** Strings *)

Definition lower_ascii (c : ascii) : ascii :=
  let n := nat_of_ascii c in
  if ((65 <=? n) && (n <=? 90))%nat then ascii_of_nat (n + 32) else c.

(** [String.prototype.toLowerCase], on the ASCII letters. *)
Fixpoint toLowerCase (s : string) : string :=
  match s with
  | EmptyString => EmptyString
  | String c r => String (lower_ascii c) (toLowerCase r)
  end.

(** The one-character string holding a double quote. *)
Definition dq : string := String (ascii_of_nat 34) EmptyString.

(** [Number.prototype.toString] of an integer-valued number: its decimal
    digits, with a minus sign below zero.  This is what JavaScript
    prints for the integers a number holds exactly, those up to
    [Number.MAX_SAFE_INTEGER] in absolute value.  Above it two integers
    can be one number, and from 1e21 on JavaScript prints an exponent
    form; neither is modelled. *)
Definition toString (n : Z) : string :=
  NilZero.string_of_int (Z.to_int n).

(** [Number.MAX_SAFE_INTEGER], 2^53 - 1. *)
Definition MAX_SAFE_INTEGER : Z := 9007199254740991.

(** [Number.isSafeInteger] on an integer. *)
Definition isSafeInteger (n : Z) : bool :=
  (Z.abs n <=? MAX_SAFE_INTEGER)%Z.

(** *** Method-call syntax

    [recv |> invoke "m" args] is the JavaScript [recv.m(args)]. *)
Definition invoke (method : string) (args : list val) (recv : ee) : ee :=
  Call recv method args.

Notation "x |> f" := (f x) (at level 45, left associativity, only parsing).

Definition normalizedDifference (bands : list string) : ee -> ee :=
  invoke "normalizedDifference" [VArr (map VStr bands)].
Definition rename (name : string) : ee -> ee :=
  invoke "rename" [VStr name].
Definition select (band : string) : ee -> ee :=
  invoke "select" [VStr band].
Definition addBands (src : ee) : ee -> ee :=
  invoke "addBands" [VEE src].
Definition addBandsList (srcs : list ee) : ee -> ee :=
  invoke "addBands" [VArr (map VEE srcs)].
Definition expression (expr : string) (vars : list (string * val)) : ee -> ee :=
  invoke "expression" [VStr expr; VObj vars].
Definition get (key : string) : ee -> ee :=
  invoke "get" [VStr key].
Definition log : ee -> ee := invoke "log" [].
Definition sqrt : ee -> ee := invoke "sqrt" [].
Definition subtract (v : val) : ee -> ee := invoke "subtract" [v].
Definition multiply (v : val) : ee -> ee := invoke "multiply" [v].
Definition divide (v : val) : ee -> ee := invoke "divide" [v].
Definition matrixMultiply (e : ee) : ee -> ee := invoke "matrixMultiply" [VEE e].
Definition matrixTranspose : ee -> ee := invoke "matrixTranspose" [].
Definition matrixInverse : ee -> ee := invoke "matrixInverse" [].

Definition ee_Number (v : val) : ee := Static "ee.Number" [v].
Definition ee_Image (v : val) : ee := Static "ee.Image" [v].
Definition ee_Array (v : val) : ee := Static "ee.Array" [v].
Definition ee_List (v : val) : ee := Static "ee.List" [v].
Definition ee_Dictionary (v : val) : ee := Static "ee.Dictionary" [v].
Definition ee_Date (v : val) : ee := Static "ee.Date" [v].
Definition ee_ImageCollection (v : val) : ee := Static "ee.ImageCollection" [v].
Definition ee_Image_constant (v : val) : ee := Static "ee.Image.constant" [v].

(** ** The environment: the module's [COLOR] object and the platform's
    console, map and export queue *)

Record Env : Type := mkEnv {
  env_COLOR : gmap string string;
  console : list val;
  map_layers : list (val * val * val);
  export_tasks : list val
}.

Definition M (A : Type) : Type := Env -> A * Env.

#[global] Instance M_ret : MRet M := fun A (a : A) s => (a, s).
#[global] Instance M_bind : MBind M :=
  fun A B (k : A -> M B) (m : M A) s => let (a, s') := m s in k a s'.

(** [print(v)] *)
Definition print (v : val) : M unit :=
  fun s => (tt, mkEnv (env_COLOR s) (console s ++ [v]) (map_layers s) (export_tasks s)).

(** [Map.addLayer(eeObject, visParams, name)] *)
Definition Map_addLayer (obj vis name : val) : M unit :=
  fun s => (tt, mkEnv (env_COLOR s) (console s) (map_layers s ++ [(obj, vis, name)]) (export_tasks s)).

(** [Export.image.toDrive(params)] *)
Definition Export_image_toDrive (params : val) : M unit :=
  fun s => (tt, mkEnv (env_COLOR s) (console s) (map_layers s) (export_tasks s ++ [params])).

(** [COLOR.key]: a property read; a missing property is [undefined]. *)
Definition COLOR_get (key : string) : M val :=
  fun s => (match env_COLOR s !! key with Some c => VStr c | None => VUndef end, s).

(** [var COLOR = { ... }] *)
Definition COLOR : gmap string string :=
  <["WATER" := "0066ff"]> (
  <["FOREST" := "009933"]> (
  <["PASTURE" := "99cc00"]> (
  <["URBAN" := "ff0000"]> (
  <["SHADOW" := "000000"]> (
  <["NULL" := "808080"]> ∅))))).

(** The environment once the module is loaded. *)
Definition loaded : Env := mkEnv COLOR [] [] [].

(** [function error(funcName, msg)] *)
Definition error (funcName msg : string) : M unit :=
  print (VStr "------------------  GEET  --------------------") ;;
  print (VStr ("GEET Error in function: " ++ funcName)) ;;
  print (VStr msg) ;;
  print (VStr "----------------------------------------------").

(** [v === 'lit'] for a string literal *)
Definition strict_eq_str (v : val) (lit : string) : bool :=
  match v with VStr s => String.eqb s lit | _ => false end.

(** [v === n] for a number literal *)
Definition strict_eq_num (v : val) (n : Q) : bool :=
  match v with VNum q => Qeq_bool q n | _ => false end.

(** [v - 1] for a number [v] (only ever evaluated on a number) *)
Definition minus_one (v : val) : val :=
  match v with VNum q => VNum (q - 1) | _ => VUndef end.

(** [v === true] *)
Definition strict_eq_true (v : val) : bool :=
  match v with VBool true => true | _ => false end.

(** [v === undefined] *)
Definition is_undefined (v : val) : bool :=
  match v with VUndef => true | _ => false end.

(** The message of the [loadL*ByPathRow] functions; it quotes the three
    collection types with double quotes. *)
Definition collection_type_message : string :=
  "Choose between " ++ dq ++ "raw" ++ dq ++ ", " ++ dq ++ "toa" ++ dq ++ " or "
  ++ dq ++ "sr" ++ dq ++ " for the collection type!".

(** [function solarAngleElevation(original_img, raw_reflectance)] *)
Definition solarAngleElevation (original_img raw_reflectance : ee) : ee :=
  let sun_elevation := ee_Number (VEE (original_img |> get "SUN_ELEVATION")) in
  let sin_sun_elevation := sun_elevation |> invoke "sin" [] in
  let toa := raw_reflectance |> divide (VEE sin_sun_elevation) |> rename "TOA_Reflectance_SE" in
  toa.

(** [function solarAngleZenith(original_img, raw_reflectance)] *)
Definition solarAngleZenith (original_img raw_reflectance : ee) : ee :=
  let sun_elevation := ee_Number (VEE (original_img |> get "SUN_ELEVATION")) in
  let solar_zenith := ee_Number (VNum 90) |> subtract (VEE sun_elevation) in
  let cos_sun_elevation := solar_zenith |> invoke "cos" [] in
  let toa := raw_reflectance |> divide (VEE cos_sun_elevation) |> rename "TOA_Reflectance_SZ" in
  toa.

Module exports.

(** [exports.svm = function (image, trainingData, fieldName, kernelType, scale)] *)
Definition svm (image : ee) (trainingData fieldName kernelType scale : val) : ee :=
  let kernelType := default kernelType (VStr "RBF") in
  let scale := default scale (VNum 30) in
  let training := image |> invoke "sampleRegions"
    [VObj [("collection", trainingData); ("properties", VArr [fieldName]); ("scale", scale)]] in
  let classifier := Static "ee.Classifier.svm"
    [VObj [("kernelType", kernelType); ("cost", VNum 10)]] in
  let trained := classifier |> invoke "train" [VEE training; fieldName] in
  let classified := image |> invoke "classify" [VEE trained] in
  classified.

(** [exports.cart = function (image, trainingData, fieldName, scale)] *)
Definition cart (image : ee) (trainingData fieldName scale : val) : ee :=
  let scale := default scale (VNum 30) in
  let training := image |> invoke "sampleRegions"
    [VObj [("collection", trainingData); ("properties", VArr [fieldName]); ("scale", scale)]] in
  let classifier := Static "ee.Classifier.cart" [] |> invoke "train"
    [VObj [("features", VEE training); ("classProperty", fieldName)]] in
  let classified := image |> invoke "classify" [VEE classifier] in
  classified.

(** [exports.rf = function (image, trainingData, fieldName, numOfTrees)] *)
Definition rf (image : ee) (trainingData fieldName numOfTrees : val) : ee :=
  let numOfTrees := default numOfTrees (VNum 10) in
  let training := image |> invoke "sampleRegions"
    [VObj [("collection", trainingData); ("properties", VArr [fieldName]); ("scale", VNum 30)]] in
  let classifier := Static "ee.Classifier.randomForest" [numOfTrees] |> invoke "train"
    [VObj [("features", VEE training); ("classProperty", fieldName)]] in
  let classified := image |> invoke "classify" [VEE classifier] in
  classified.

(** [exports.kmeans = function (image, roi, numClusters, scale, numPixels)] *)
Definition kmeans (image : ee) (roi numClusters scale numPixels : val) : M val :=
  (if is_undefined roi
   then print (VStr "Error: You need to define and pass a roi as argument to collect the samples for the classfication process.")
   else mret tt) ;;
  let numClusters := default numClusters (VNum 15) in
  let scale := default scale (VNum 30) in
  let numPixels := default numPixels (VNum 5000) in
  let training := image |> invoke "sample"
    [VObj [("region", roi); ("scale", scale); ("numPixels", numPixels)]] in
  let clusterer := Static "ee.Clusterer.wekaKMeans" [numClusters] |> invoke "train" [VEE training] in
  let result := image |> invoke "cluster" [VEE clusterer] in
  Map_addLayer (VEE (Static "ee.Image" [] |> invoke "paint" [roi; VNum 0; VNum 2]))
               (VObj []) (VStr "roi_kmeans") ;;
  Map_addLayer (VEE (result |> invoke "randomVisualizer" [])) (VObj []) (VStr "clusters") ;;
  mret (VEE result).

(** [exports.simpleNDVIChangeDetection = function (img1, img2, sensor, threshold)] *)
Definition simpleNDVIChangeDetection (img1 img2 : ee) (sensor : string) (threshold : val) : M val :=
  let continue (i_ndvi_1 i_ndvi_2 : ee) : M val :=
    let i_ndvi_1_mask := i_ndvi_1 |> select "NDVI" |> invoke "gte" [threshold] in
    let i_ndvi_2_mask := i_ndvi_2 |> select "NDVI" |> invoke "gte" [threshold] in
    let imgSoma := i_ndvi_1_mask |> invoke "add" [VEE i_ndvi_2_mask] in
    shadow ← COLOR_get "SHADOW"; urban ← COLOR_get "URBAN"; pasture ← COLOR_get "PASTURE";
    Map_addLayer (VEE imgSoma)
      (VObj [("min", VNum 0); ("max", VNum 2); ("palette", VArr [shadow; urban; pasture])])
      (VStr "ndvi_cd") ;;
    mret (VEE imgSoma) in
  if String.eqb sensor "L8" then
    continue (img1 |> normalizedDifference ["B5"; "B4"] |> rename "NDVI")
             (img2 |> normalizedDifference ["B5"; "B4"] |> rename "NDVI")
  else if String.eqb sensor "L5" || String.eqb sensor "L7" then
    continue (img1 |> normalizedDifference ["B4"; "B3"] |> rename "NDVI")
             (img2 |> normalizedDifference ["B4"; "B3"] |> rename "NDVI")
  else if String.eqb sensor "S2" then
    continue (img1 |> normalizedDifference ["B8"; "B4"] |> rename "NDVI")
             (img2 |> normalizedDifference ["B8"; "B4"] |> rename "NDVI")
  else
    print (VStr "Error: Wrong sensor. Choose between L5, L7, L8 or S2") ;;
    mret VUndef.

(** [exports.simpleNDWIChangeDetection = function (img1, img2, sensor, threshold)] *)
Definition simpleNDWIChangeDetection (img1 img2 : ee) (sensor : string) (threshold : val) : M val :=
  let continue (i_ndwi_1 i_ndwi_2 : ee) : M val :=
    let i_ndwi_1_mask := i_ndwi_1 |> select "NDWI" |> invoke "gte" [threshold] in
    let i_ndwi_2_mask := i_ndwi_2 |> select "NDWI" |> invoke "gte" [threshold] in
    let imgSoma := i_ndwi_1_mask |> invoke "add" [VEE i_ndwi_2_mask] in
    shadow ← COLOR_get "SHADOW"; urban ← COLOR_get "URBAN"; pasture ← COLOR_get "PASTURE";
    Map_addLayer (VEE imgSoma)
      (VObj [("min", VNum 0); ("max", VNum 2); ("palette", VArr [shadow; urban; pasture])])
      (VStr "ndwi_cd") ;;
    mret (VEE imgSoma) in
  if String.eqb sensor "L8" then
    continue (img1 |> normalizedDifference ["B4"; "B6"] |> rename "NDWI")
             (img2 |> normalizedDifference ["B4"; "B6"] |> rename "NDWI")
  else if String.eqb sensor "L5" || String.eqb sensor "L7" then
    continue (img1 |> normalizedDifference ["B3"; "B5"] |> rename "NDWI")
             (img2 |> normalizedDifference ["B3"; "B5"] |> rename "NDWI")
  else if String.eqb sensor "S2" then
    continue (img1 |> normalizedDifference ["B4"; "B11"] |> rename "NDWI")
             (img2 |> normalizedDifference ["B4"; "B11"] |> rename "NDWI")
  else
    print (VStr "Error: Wrong sensor. Choose between L5, L7, L8 or S2") ;;
    mret VUndef.

(** [exports.simpleNDBIChangeDetection = function (img1, img2, sensor, threshold)] *)
Definition simpleNDBIChangeDetection (img1 img2 : ee) (sensor : string) (threshold : val) : M val :=
  let continue (i_ndbi_1 i_ndbi_2 : ee) : M val :=
    let i_ndbi_1_mask := i_ndbi_1 |> select "NDBI" |> invoke "gte" [threshold] in
    let i_ndbi_2_mask := i_ndbi_2 |> select "NDBI" |> invoke "gte" [threshold] in
    let imgSoma := i_ndbi_1_mask |> invoke "add" [VEE i_ndbi_2_mask] in
    shadow ← COLOR_get "SHADOW"; urban ← COLOR_get "URBAN"; pasture ← COLOR_get "PASTURE";
    Map_addLayer (VEE imgSoma)
      (VObj [("min", VNum 0); ("max", VNum 2); ("palette", VArr [shadow; urban; pasture])])
      (VStr "ndbi_cd") ;;
    mret (VEE imgSoma) in
  if String.eqb sensor "L8" then
    continue (img1 |> normalizedDifference ["B6"; "B5"] |> rename "NDBI")
             (img2 |> normalizedDifference ["B6"; "B5"] |> rename "NDBI")
  else if String.eqb sensor "L5" || String.eqb sensor "L7" then
    continue (img1 |> normalizedDifference ["B5"; "B4"] |> rename "NDBI")
             (img2 |> normalizedDifference ["B5"; "B4"] |> rename "NDBI")
  else if String.eqb sensor "S2" then
    continue (img1 |> normalizedDifference ["B11"; "B8"] |> rename "NDBI")
             (img2 |> normalizedDifference ["B11"; "B8"] |> rename "NDBI")
  else
    print (VStr "Error: Wrong sensor. Choose between L5, L7, L8 or S2") ;;
    mret VUndef.

(** [exports.texture = function (image, radius)] *)
Definition texture (image : ee) (radius : val) : ee :=
  let texture := image |> invoke "reduceNeighborhood"
    [VObj [("reducer", VEE (Static "ee.Reducer.stdDev" []));
           ("kernel", VEE (Static "ee.Kernel.circle" [radius]))]] in
  texture.

(** [exports.majority = function (image, radius)] *)
Definition majority (image : ee) (radius : val) : ee :=
  let majority := image |> invoke "reduceNeighborhood"
    [VObj [("reducer", VEE (Static "ee.Reducer.mode" []));
           ("kernel", VEE (Static "ee.Kernel.circle" [radius]))]] in
  majority.

Definition color_error : string :=
  "Error: Valid options are water, forest, pasture, urban, shadow or null! Remember to pass the argument as a string.".

(** [exports.color = function (_color)] *)
Definition color (_color : string) : M val :=
  let color := toLowerCase _color in
  if String.eqb color "water" then COLOR_get "WATER"
  else if String.eqb color "forest" then COLOR_get "FOREST"
  else if String.eqb color "pasture" then COLOR_get "PASTURE"
  else if String.eqb color "urban" then COLOR_get "URBAN"
  else if String.eqb color "shadow" then COLOR_get "SHADOW"
  else if String.eqb color "null" then COLOR_get "NULL"
  else mret (VStr color_error).

(** [exports.plotRGB = function (image, title)] *)
Definition plotRGB (image : ee) (title : val) : M val :=
  let title := default title (VStr "image_RGB") in
  let vizParams := VObj [("bands", VStr "B4,B3,B2"); ("min", VNum 5000);
                         ("max", VNum 30000); ("gamma", VNum 1.6)] in
  Map_addLayer (VEE image) vizParams title ;;
  mret VUndef.

(** [exports.plotNDVI = function (image, title)] *)
Definition plotNDVI (image : ee) (title : val) : M val :=
  Map_addLayer (VEE image)
    (VObj [("min", VNum (-1)); ("max", VNum 1); ("palette", VArr [VStr "FF0000"; VStr "00FF00"])])
    title ;;
  mret VUndef.

(** [exports.plotNDWI = function (image, title)] *)
Definition plotNDWI (image : ee) (title : val) : M val :=
  Map_addLayer (VEE image)
    (VObj [("min", VNum (-1)); ("max", VNum 1); ("palette", VArr [VStr "00FFFF"; VStr "0000FF"])])
    title ;;
  mret VUndef.

(** [exports.plotClass = function (image, numClasses, title)] *)
Definition plotClass (image : ee) (numClasses title : val) : M val :=
  let title := default title (VStr "class_final") in
  let layer (keys : list string) : M val :=
    palette ← mapM COLOR_get keys;
    Map_addLayer (VEE image)
      (VObj [("min", VNum 0); ("max", minus_one numClasses); ("palette", VArr palette)]) title ;;
    mret VUndef in
  if strict_eq_num numClasses 2 then layer ["SHADOW"; "NULO"]
  else if strict_eq_num numClasses 3 then layer ["URBAN"; "FOREST"; "WATER"]
  else if strict_eq_num numClasses 4 then layer ["URBAN"; "FOREST"; "PASTURE"; "WATER"]
  else if strict_eq_num numClasses 5 then layer ["URBAN"; "FOREST"; "PASTURE"; "WATER"; "SHADOW"]
  else
    print (VStr "Error: Wrong number of classes. plotClass supports a number of classes from 2 to 5 only.") ;;
    mret VUndef.

(** [exports.landsatIndices = function (image, sensor, index)].
    [sensor] is the string of the documentation, on which [==] is
    string equality.  The JavaScript [switch] compares [index] strictly
    with the upper-case names; each branch that returns does so with [image.addBands(band)],
    and a branch that only prints falls out of the function, which then
    returns [undefined]. *)
Definition landsatIndices (image : ee) (sensor : string) (index : val) : M val :=
  let L5_L7 := String.eqb sensor "L5" || String.eqb sensor "L7" in
  let L8 := String.eqb sensor "L8" in
  let S2 := String.eqb sensor "S2" in
  let nd (name : string) (bands : list string) : ee :=
    image |> normalizedDifference bands |> rename name in
  let ex (name expr : string) (vars : list (string * val)) : ee :=
    image |> expression expr vars |> rename name in
  let band (b : string) : val := VEE (image |> select b) in
  let newImage (i : ee) : M val := mret (VEE (image |> addBands i)) in
  let wrong : M val := print (VStr "Error: Wrong sensor!") ;; mret VUndef in
  let NRVI := "(RED/NIR - 1) / (RED/NIR + 1)" in
  let EVI := "2.5 * ((NIR - RED)) / (NIR + 6 * RED - 7.5 * BLUE + 1)" in
  let SAVI := "(1 + L) * (NIR - RED) / (NIR + RED + L)" in
  let GOSAVI := "(NIR - GREEN) / (NIR + GREEN + Y)" in
  if not_nullish index then
    if strict_eq_str index "NDVI" then
      if L5_L7 then newImage (nd "NDVI" ["B4"; "B3"])
      else if L8 then newImage (nd "NDVI" ["B5"; "B4"])
      else if S2 then newImage (nd "NDVI" ["B8"; "B4"])
      else wrong
    else if strict_eq_str index "NDWI" then
      if L5_L7 then newImage (nd "NDWI" ["B3"; "B5"])
      else if L8 then newImage (nd "NDWI" ["B4"; "B6"])
      else if S2 then newImage (nd "NDWI" ["B4"; "B11"])
      else wrong
    else if strict_eq_str index "NDBI" then
      if L5_L7 then newImage (nd "NDBI" ["B5"; "B4"])
      else if L8 then newImage (nd "NDBI" ["B6"; "B5"])
      else if S2 then newImage (nd "NDBI" ["B11"; "B8"])
      else wrong
    else if strict_eq_str index "NRVI" then
      if L5_L7 then newImage (ex "NRVI" NRVI [("NIR", band "B4"); ("RED", band "B3")])
      else if L8 then newImage (ex "NRVI" NRVI [("NIR", band "B5"); ("RED", band "B4")])
      else wrong
    else if strict_eq_str index "EVI" then
      if L5_L7 then
        newImage (ex "EVI" EVI [("NIR", band "B4"); ("RED", band "B3"); ("BLUE", band "B1")])
      else if L8 then
        newImage (ex "EVI" EVI [("NIR", band "B5"); ("RED", band "B4"); ("BLUE", band "B2")])
      else if S2 then
        newImage (ex "EVI" EVI [("NIR", band "B8"); ("RED", band "B4"); ("BLUE", band "B2")])
      else wrong
    else if strict_eq_str index "SAVI" then
      if L5_L7 then
        newImage (ex "SAVI" SAVI [("NIR", band "B4"); ("RED", band "B3"); ("L", VNum 0.2)])
      else if L8 then
        newImage (ex "SAVI" SAVI [("NIR", band "B5"); ("RED", band "B4"); ("L", VNum 0.2)])
      else if S2 then
        newImage (ex "SAVI" SAVI [("NIR", band "B8"); ("RED", band "B4"); ("L", VNum 0.2)])
      else wrong
    else if strict_eq_str index "GOSAVI" then
      if L5_L7 then
        newImage (ex "GOSAVI" GOSAVI [("NIR", band "B4"); ("GREEN", band "B2"); ("Y", VNum 0.16)])
      else if L8 then
        newImage (ex "GOSAVI" GOSAVI [("NIR", band "B5"); ("GREEN", band "B3"); ("Y", VNum 0.16)])
      else if S2 then
        newImage (ex "GOSAVI" GOSAVI [("NIR", band "B8"); ("GREEN", band "B3"); ("Y", VNum 0.16)])
      else wrong
    else mret VUndef
  else
    if L5_L7 then
      let i_ndvi := nd "NDVI" ["B4"; "B3"] in
      let i_ndwi := nd "NDWI" ["B2"; "B5"] in
      let i_ndbi := nd "NDBI" ["B5"; "B4"] in
      let i_nrvi := ex "NRVI" NRVI [("NIR", band "B4"); ("RED", band "B3")] in
      let i_evi := ex "EVI" EVI [("NIR", band "B4"); ("RED", band "B3"); ("BLUE", band "B1")] in
      let i_savi := ex "SAVI" SAVI [("NIR", band "B4"); ("RED", band "B3"); ("L", VNum 0.2)] in
      let i_gosavi := ex "GOSAVI" GOSAVI [("NIR", band "B4"); ("GREEN", band "B2"); ("Y", VNum 0.16)] in
      mret (VEE (image |> addBandsList [i_ndvi; i_ndwi; i_ndbi; i_nrvi; i_evi; i_savi; i_gosavi]))
    else if L8 then
      let i_ndvi := nd "NDVI" ["B5"; "B4"] in
      let i_ndwi := nd "NDWI" ["B3"; "B6"] in
      let i_ndbi := nd "NDBI" ["B6"; "B5"] in
      let i_nrvi := ex "NRVI" NRVI [("NIR", band "B5"); ("RED", band "B4")] in
      let i_evi := ex "EVI" EVI [("NIR", band "B5"); ("RED", band "B4"); ("BLUE", band "B2")] in
      let i_savi := ex "SAVI" SAVI [("NIR", band "B5"); ("RED", band "B4"); ("L", VNum 0.2)] in
      let i_gosavi := ex "GOSAVI" GOSAVI [("NIR", band "B5"); ("GREEN", band "B3"); ("Y", VNum 0.16)] in
      mret (VEE (image |> addBandsList [i_ndvi; i_ndwi; i_ndbi; i_nrvi; i_evi; i_savi; i_gosavi]))
    else if S2 then
      let i_ndvi := nd "NDVI" ["B8"; "B4"] in
      let i_ndwi := nd "NDWI" ["B3"; "B11"] in
      let i_ndbi := nd "NDBI" ["B11"; "B8"] in
      let i_evi := ex "EVI" EVI [("NIR", band "B8"); ("RED", band "B4"); ("BLUE", band "B2")] in
      let i_savi := ex "SAVI" SAVI [("NIR", band "B8"); ("RED", band "B4"); ("L", VNum 0.2)] in
      let i_gosavi := ex "GOSAVI" GOSAVI [("NIR", band "B8"); ("GREEN", band "B3"); ("Y", VNum 0.16)] in
      mret (VEE (image |> addBandsList [i_ndvi; i_ndwi; i_ndbi; i_evi; i_savi; i_gosavi]))
    else
      print (VStr "Error: Wrong sensor input!") ;;
      print (VStr "Choose 'L5' to process Landsat 5 images, 'L8' for Landsat 8 and S2 for Sentinel 2") ;;
      mret VUndef.

Definition GEMI_expr : string :=
  "(((NIR_POW - RED_POW) * 2 + (NIR * 1.5) + (RED * 0.5))/(NIR + RED + 0.5)) * (1 - ((((NIR_POW - RED_POW) * 2 + (NIR * 1.5) + (RED * 0.5)) / (NIR + RED + 0.5)) * 0.25)) - ((RED - 0.125) / (1 - RED))".

(** [exports.sentinel2Indices = function (image, index)].  [index] is
    an optional string: [None] is the omitted argument, [Some s] the
    JavaScript string [s].  The function calls [index.toLowerCase()] on
    whatever index it is given, a method of strings; an index of
    another type (the string array of the documentation, [null]) is
    outside this embedding, and nothing is stated of it.  The guard
    [image === undefined] cannot fire on a handle.  A [switch] that
    matches no [case] falls out of the function, which returns
    [undefined]. *)
Definition sentinel2Indices (image : ee) (index : option string) : val :=
  let nd (name : string) (bands : list string) : ee :=
    image |> normalizedDifference bands |> rename name in
  let band (b : string) : val := VEE (image |> select b) in
  let newImage (i : ee) : val := VEE (image |> addBands i) in
  let SAVI := "(1 + L) * (NIR - RED) / (NIR + RED + L)" in
  let GOSAVI := "(NIR - GREEN) / (NIR + GREEN + Y)" in
  let EVI := "2.5 * ((NIR - RED) / (NIR + 6 * RED - 7.5 * BLUE + 1))" in
  let EVI2 := "2.4 * ((NIR - RED) / (NIR + 2.4 * RED + 1))" in
  let i_savi := image |> expression SAVI
    [("NIR", band "B8"); ("RED", band "B4"); ("L", VNum 0.5)] |> rename "SAVI" in
  let i_gosavi := image |> expression GOSAVI
    [("NIR", band "B8"); ("GREEN", band "B3"); ("Y", VNum 0.16)] |> rename "GOSAVI" in
  let i_evi := image |> expression EVI
    [("NIR", band "B8"); ("RED", band "B4"); ("BLUE", band "B2")] |> rename "EVI" in
  let i_evi2 := image |> expression EVI2
    [("NIR", band "B8"); ("RED", band "B4")] |> rename "EVI2" in
  let i_gemi := image |> expression GEMI_expr
    [("RED", band "B4"); ("NIR", band "B8");
     ("RED_POW", VEE (image |> select "B4" |> invoke "pow" [VNum 2]));
     ("NIR_POW", VEE (image |> select "B8" |> invoke "pow" [VNum 2]))] |> rename "GEMI" in
  let i_rvi := image |> expression "RED / NIR"
    [("NIR", band "B8"); ("RED", band "B4")] |> rename "RVI" in
  let i_logr_semlog := image |> expression "RED / NIR"
    [("NIR", band "B8"); ("RED", band "B4")] in
  let i_logr_comlog := i_logr_semlog |> log |> rename "logR" in
  let i_ndvi_temp := image |> normalizedDifference ["B8"; "B4"] in
  let i_tvi_temp := image |> expression "NDVI + 0.5" [("NDVI", VEE i_ndvi_temp)] in
  let i_tvi := i_tvi_temp |> sqrt |> rename "TVI" in
  match index with
  | Some index =>
    let index := toLowerCase index in
    if String.eqb index "ndvi" then newImage (nd "NDVI" ["B8"; "B4"])
    else if String.eqb index "ndwi" then newImage (nd "NDWI" ["B3"; "B8"])
    else if String.eqb index "ndbi" then newImage (nd "NDBI" ["B11"; "B8"])
    else if String.eqb index "mndwi" then newImage (nd "MNDWI" ["B3"; "B12"])
    else if String.eqb index "mndvi" then newImage (nd "MNDVI" ["B9"; "B12"])
    else if String.eqb index "ngrdi" then newImage (nd "NGRDI" ["B3"; "B5"])
    else if String.eqb index "ndsi" then newImage (nd "NDSI" ["B11"; "B12"])
    else if String.eqb index "ri" then newImage (nd "RI" ["B5"; "B3"])
    else if String.eqb index "ndmi" then newImage (nd "NDMI" ["B9"; "B12"])
    else if String.eqb index "gndvi" then newImage (nd "GNDVI" ["B9"; "B3"])
    else if String.eqb index "bndvi" then newImage (nd "BNDVI" ["B9"; "B1"])
    else if String.eqb index "nbr" then newImage (nd "NBR" ["B9"; "B12"])
    else if String.eqb index "ppr" then newImage (nd "PPR" ["B9"; "B12"])
    else if String.eqb index "ndre" then newImage (nd "NDRE" ["B9"; "B5"])
    else if String.eqb index "lci" then newImage (nd "LCI" ["B8"; "B5"])
    else if String.eqb index "savi" then newImage i_savi
    else if String.eqb index "gosavi" then newImage i_gosavi
    else if String.eqb index "evi" then newImage i_evi
    else if String.eqb index "evi2" then newImage i_evi2
    else if String.eqb index "gemi" then newImage i_gemi
    else if String.eqb index "rvi" then newImage i_rvi
    else if String.eqb index "logr" then newImage i_logr_comlog
    else if String.eqb index "tvi" then newImage i_tvi
    else VUndef
  | None =>
    let i_ndvi := nd "NDVI" ["B8"; "B4"] in
    let i_ndwi := nd "NDWI" ["B3"; "B8"] in
    let i_ndbi := nd "NDBI" ["B11"; "B8"] in
    let i_mndwi := nd "MNDWI" ["B3"; "B12"] in
    let i_mndvi := nd "MNDVI" ["B9"; "B12"] in
    let i_ngrdi := nd "NGRDI" ["B3"; "B5"] in
    let i_ndsi := nd "NDSI" ["B11"; "B12"] in
    let i_ri := nd "RI" ["B5"; "B3"] in
    let i_ndmi := nd "NDMI" ["B9"; "B12"] in
    let i_gndvi := nd "GNDVI" ["B9"; "B3"] in
    let i_bndvi := nd "BNDVI" ["B9"; "B1"] in
    let i_nbr := nd "NBR" ["B9"; "B12"] in
    let i_ppr := nd "PPR" ["B9"; "B12"] in
    let i_ndre := nd "NDRE" ["B9"; "B5"] in
    let i_lci := nd "LCI" ["B8"; "B5"] in
    VEE (image |> addBandsList
      [i_ndvi; i_ndwi; i_ndbi; i_mndwi; i_mndvi; i_ngrdi;
       i_ndsi; i_ri; i_ndmi; i_gndvi; i_bndvi; i_nbr; i_ppr;
       i_ndre; i_lci; i_savi; i_gosavi; i_evi; i_evi2; i_rvi;
       i_logr_comlog; i_tvi])
  end.

(** [exports.loadImg = function (collection, year, roi, cloudFree)];
    [collection] is an optional string and [year] an optional integer
    year. *)
Definition loadImg (collection : option string) (year : option Z) (roi cloudFree : val) : M val :=
  let visParams := VObj [("bands", VArr [VStr "B4"; VStr "B3"; VStr "B2"]); ("max", VNum 0.3)] in
  let collection := match collection with Some c => c | None => "TOA" end in
  let roi := default roi (VEE (Static "ee.Geometry.Point" [VNum (-43.25); VNum (-22.90)])) in
  let year := match year with Some y => y | None => 2015%Z end in
  let cloudFree := default cloudFree (VBool true) in
  let wrong : M (string * val) :=
    print (VStr "Error: Wrong collection type. Possible inputs: 'RAW', 'TOA' or 'SR'.") ;;
    mret (collection, visParams) in
  '(collection, visParams) ←
    (if (2013 <=? year)%Z then
       if String.eqb collection "RAW" then
         mret ("LANDSAT/LC8_L1T",
               VObj [("bands", VArr [VStr "B4"; VStr "B3"; VStr "B2"]);
                     ("min", VNum 6809); ("max", VNum 12199)])
       else if String.eqb collection "TOA" then
         mret ("LANDSAT/LC8_L1T_TOA_FMASK", visParams)
       else if String.eqb collection "SR" then
         mret ("LANDSAT/LC8_SR",
               VObj [("bands", VArr [VStr "B4"; VStr "B3"; VStr "B2"]);
                     ("min", VNum 104); ("max", VNum 1632)])
       else wrong
     else if (year <? 2013)%Z && (1985 <=? year)%Z then
       if String.eqb collection "RAW" then
         mret ("LANDSAT/LT5_L1T",
               VObj [("bands", VArr [VStr "B4"; VStr "B3"; VStr "B2"]);
                     ("min", VNum 6809); ("max", VNum 12199)])
       else if String.eqb collection "TOA" then
         mret ("LANDSAT/LT5_L1T_TOA_FMASK", visParams)
       else if String.eqb collection "SR" then
         mret ("LANDSAT/LT5_SR",
               VObj [("bands", VArr [VStr "B4"; VStr "B3"; VStr "B2"]);
                     ("min", VNum 104); ("max", VNum 1632)])
       else wrong
     else
       print (VStr "Error: Wrong year parameter") ;;
       mret (collection, visParams));
  let start := "-01-01" in
  let finish := "-12-31" in
  let ic := ee_ImageCollection (VStr collection) in
  let filtered := ic
    |> invoke "filterBounds" [roi]
    |> invoke "filterDate" [VStr (toString year ++ start); VStr (toString year ++ finish)]
    |> invoke "sort" [VStr "CLOUD_COVER"] in
  let result_image :=
    if strict_eq_true cloudFree && String.eqb collection "TOA" then
      let noclouds := VFun ["image"]
        (let image := Handle "image" in
         let mask := image |> invoke "select" [VArr [VStr "fmask"]] |> invoke "neq" [VNum 4] in
         VEE (image |> invoke "updateMask" [VEE mask])) in
      let image := ee_ImageCollection (VEE filtered) |> invoke "map" [noclouds] in
      image |> invoke "median" []
    else
      ee_Image (VEE (filtered |> invoke "first" [])) in
  let title := "loadImg" in
  let titleName := title ++ "_" ++ toString year in
  Map_addLayer (VEE result_image) visParams (VStr titleName) ;;
  print (VEE result_image) ;;
  mret (VEE result_image).

(** [exports.toaRadiance = function (image, band)]; [band] is the band
    number. *)
Definition toaRadiance (image : ee) (band : Z) : ee :=
  let band_to_toa := image |> select ("B" ++ toString band) in
  let radiance_multi_band := ee_Number (VEE (image |> get ("RADIANCE_MULT_BAND_" ++ toString band))) in
  let radiance_add_band := ee_Number (VEE (image |> get ("RADIANCE_ADD_BAND_" ++ toString band))) in
  let toa_radiance := band_to_toa |> expression "(Ml * band) + Al"
    [("Ml", VEE radiance_multi_band); ("Al", VEE radiance_add_band); ("band", VEE band_to_toa)]
    |> rename "TOA_Radiance" in
  let img_radiance := image |> addBands toa_radiance in
  img_radiance.

(** [exports.toaReflectance = function (image, band)] *)
Definition toaReflectance (image : ee) (band : Z) : ee :=
  let band_to_toa := image |> select ("B" ++ toString band) in
  let reflectance_multi_band := ee_Number (VEE (image |> get ("REFLECTANCE_MULT_BAND_" ++ toString band))) in
  let reflectance_add_band := ee_Number (VEE (image |> get ("REFLECTANCE_ADD_BAND_" ++ toString band))) in
  let toa := band_to_toa |> expression "(Mp * image) + Ap"
    [("Mp", VEE reflectance_multi_band); ("Ap", VEE reflectance_add_band); ("image", VEE band_to_toa)]
    |> rename ("B" ++ toString band ++ "_TOA_Reflectance") in
  toa.

(** [exports.toaReflectanceL8 = function (image, band, _solarAngle)] *)
Definition toaReflectanceL8 (image : ee) (band : Z) (_solarAngle : val) : M val :=
  solarAngle ←
    (if defined _solarAngle then
       let solarAngle := _solarAngle in
       if negb (strict_eq_str solarAngle "SZ") && negb (strict_eq_str solarAngle "SE") then
         print (VStr "Error: You need to choose one of two modes:") ;;
         print (VStr "Error: 'SE' for the local sun elevation angle or 'SZ' for the Local solar zenith angle.") ;;
         print (VStr "Warning: 'SZ' will be set as default mode.") ;;
         mret (VStr "SZ")
       else mret solarAngle
     else mret (VStr "SZ"));
  let band_to_toa := image |> select ("B" ++ toString band) in
  let reflectance_multi_band := ee_Number (VEE (image |> get ("REFLECTANCE_MULT_BAND_" ++ toString band))) in
  let reflectance_add_band := ee_Number (VEE (image |> get ("REFLECTANCE_ADD_BAND_" ++ toString band))) in
  if strict_eq_str solarAngle "SE" then
    let toa := band_to_toa |> expression "(Mp * image) + Ap"
      [("Mp", VEE reflectance_multi_band); ("Ap", VEE reflectance_add_band); ("image", VEE band_to_toa)]
      |> rename ("B" ++ toString band ++ "_TOA_Reflectance_SE") in
    let img_se := solarAngleElevation image toa in
    mret (VEE img_se)
  else if strict_eq_str solarAngle "SZ" then
    let toa := band_to_toa |> expression "(Mp * image) + Ap"
      [("Mp", VEE reflectance_multi_band); ("Ap", VEE reflectance_add_band); ("image", VEE band_to_toa)]
      |> rename ("B" ++ toString band ++ "_TOA_Reflectance_SZ") in
    let img_sz := solarAngleZenith image toa in
    mret (VEE img_sz)
  else mret VUndef.

(** The body shared, statement for statement, by the
    [brightnessTempL5_*] and [brightnessTempL7_*] functions, which
    differ in the two constants only. *)
Definition brightness_temp_const (K1 K2 : Q) (image : ee) : ee :=
  let brightness_temp_semlog := image |> expression "K1 / B6 + 1"
    [("K1", VNum K1); ("B6", VEE (image |> select "TOA_Radiance"))] in
  let brightness_temp_log := brightness_temp_semlog |> log in
  let brightness_temp := image |> expression "K2 / brightness_temp_log"
    [("K2", VNum K2); ("brightness_temp_log", VEE brightness_temp_log)]
    |> rename "Brightness_Temperature" in
  brightness_temp.

(** [exports.brightnessTempL5_K = function (image)] *)
Definition brightnessTempL5_K (image : ee) : ee :=
  let K1 := 607.76%Q in
  let K2 := 1260.56%Q in
  let brightness_temp := brightness_temp_const K1 K2 image in
  let img_brightness_temp := image |> addBands brightness_temp in
  img_brightness_temp.

(** [exports.brightnessTempL5_C = function (image)] *)
Definition brightnessTempL5_C (image : ee) : ee :=
  let K1 := 607.76%Q in
  let K2 := 1260.56%Q in
  let brightness_temp := brightness_temp_const K1 K2 image in
  let brightness_temp_celsius := brightness_temp |> subtract (VNum 273.5) in
  let img_brightness_temp := image |> addBands brightness_temp_celsius in
  img_brightness_temp.

(** [exports.brightnessTempL7_K = function (image)] *)
Definition brightnessTempL7_K (image : ee) : ee :=
  let K1 := 666.09%Q in
  let K2 := 1282.71%Q in
  let brightness_temp := brightness_temp_const K1 K2 image in
  let img_brightness_temp := image |> addBands brightness_temp in
  img_brightness_temp.

(** [exports.brightnessTempL7_C = function (image)] *)
Definition brightnessTempL7_C (image : ee) : ee :=
  let K1 := 666.09%Q in
  let K2 := 1282.71%Q in
  let brightness_temp := brightness_temp_const K1 K2 image in
  let brightness_temp_celsius := brightness_temp |> subtract (VNum 273.5) in
  let img_brightness_temp := image |> addBands brightness_temp_celsius in
  img_brightness_temp.

(** The value of [single] after
    [var single = (arguments[1] !== void 1 ? false : true)]: [false]
    whenever a second argument other than [undefined] was passed. *)
Definition single_flag (single : val) : bool :=
  if defined single then false else true.

(** The first branch of [brightnessTempL8_K] (B10 and B11 constants
    read). *)
Definition brightnessTempL8_K_double (image : ee) : ee :=
  let K1_10 := ee_Number (VEE (image |> get "K1_CONSTANT_BAND_10")) in
  let K2_10 := ee_Number (VEE (image |> get "K2_CONSTANT_BAND_10")) in
  let K1_11 := ee_Number (VEE (image |> get "K1_CONSTANT_BAND_11")) in
  let K2_11 := ee_Number (VEE (image |> get "K2_CONSTANT_BAND_11")) in
  let brightness_temp_semlog := image |> expression "K1 / B10 + 1"
    [("K1", VEE K1_10); ("B10", VEE (image |> select "TOA_Radiance"))] in
  let brightness_temp_log := brightness_temp_semlog |> log in
  let brightness_temp := image |> expression "K2 / brightness_temp_log"
    [("K2", VEE K2_10); ("brightness_temp_log", VEE brightness_temp_log)]
    |> rename "Brightness_Temperature" in
  let img_brightness_temp := image |> addBands brightness_temp in
  img_brightness_temp.

(** The second branch of [brightnessTempL8_K] (B10 constants only). *)
Definition brightnessTempL8_K_single (image : ee) : ee :=
  let K1_10 := ee_Number (VEE (image |> get "K1_CONSTANT_BAND_10")) in
  let K2_10 := ee_Number (VEE (image |> get "K2_CONSTANT_BAND_10")) in
  let brightness_temp_semlog := image |> expression "K1 / B10 + 1"
    [("K1", VEE K1_10); ("B10", VEE (image |> select "TOA_Radiance"))] in
  let brightness_temp_log := brightness_temp_semlog |> log in
  let brightness_temp := image |> expression "K2 / brightness_temp_log"
    [("K2", VEE K2_10); ("brightness_temp_log", VEE brightness_temp_log)]
    |> rename "Brightness_Temperature" in
  let img_brightness_temp := image |> addBands brightness_temp in
  img_brightness_temp.

(** [exports.brightnessTempL8_K = function (image, single)] *)
Definition brightnessTempL8_K (image : ee) (single : val) : ee :=
  let single := single_flag single in
  if Bool.eqb single true then brightnessTempL8_K_double image
  else brightnessTempL8_K_single image.

(** The first branch of [brightnessTempL8_C] (B10 and B11 constants
    read). *)
Definition brightnessTempL8_C_double (image : ee) : ee :=
  let K1_10 := ee_Number (VEE (image |> get "K1_CONSTANT_BAND_10")) in
  let K2_10 := ee_Number (VEE (image |> get "K2_CONSTANT_BAND_10")) in
  let K1_11 := ee_Number (VEE (image |> get "K1_CONSTANT_BAND_11")) in
  let K2_11 := ee_Number (VEE (image |> get "K2_CONSTANT_BAND_11")) in
  let brightness_temp_semlog := image |> expression "K1 / B10 + 1"
    [("K1", VEE K1_10); ("B10", VEE (image |> select "TOA_Radiance"))] in
  let brightness_temp_log := brightness_temp_semlog |> log in
  let brightness_temp := image |> expression "K2 / brightness_temp_log"
    [("K2", VEE K2_10); ("brightness_temp_log", VEE brightness_temp_log)]
    |> rename "Brightness_Temperature" in
  let brightness_temp_celsius := brightness_temp |> subtract (VNum 273.5) in
  let img_brightness_temp := image |> addBands brightness_temp_celsius in
  img_brightness_temp.

(** The second branch of [brightnessTempL8_C] (B10 constants only). *)
Definition brightnessTempL8_C_single (image : ee) : ee :=
  let K1_10 := ee_Number (VEE (image |> get "K1_CONSTANT_BAND_10")) in
  let K2_10 := ee_Number (VEE (image |> get "K2_CONSTANT_BAND_10")) in
  let brightness_temp_semlog := image |> expression "K1 / B10 + 1"
    [("K1", VEE K1_10); ("B10", VEE (image |> select "TOA_Radiance"))] in
  let brightness_temp_log := brightness_temp_semlog |> log in
  let brightness_temp := image |> expression "K2 / brightness_temp_log"
    [("K2", VEE K2_10); ("brightness_temp_log", VEE brightness_temp_log)]
    |> rename "Brightness_Temperature" in
  let brightness_temp_celsius := brightness_temp |> subtract (VNum 273.5) in
  let img_brightness_temp := image |> addBands brightness_temp_celsius in
  img_brightness_temp.

(** [exports.brightnessTempL8_C = function (image, single)] *)
Definition brightnessTempL8_C (image : ee) (single : val) : ee :=
  let single := single_flag single in
  if Bool.eqb single false then brightnessTempL8_C_double image
  else brightnessTempL8_C_single image.

(** [exports.resample = function (image, scaleNumber)] *)
Definition resample (image : ee) (scaleNumber : val) : ee :=
  let band := image |> select "B2" in
  let resampled_image := image |> invoke "resample" [VStr "bilinear"] |> invoke "reproject"
    [VObj [("crs", VEE (band |> invoke "projection" [] |> invoke "crs" []));
           ("scale", scaleNumber)]] in
  resampled_image.

(** [exports.resampleBand = function (band, scaleNumber)] *)
Definition resampleBand (band : ee) (scaleNumber : val) : ee :=
  let resampled_band := band |> invoke "resample" [VStr "bilinear"] |> invoke "reproject"
    [VObj [("crs", VEE (band |> invoke "projection" [] |> invoke "crs" []));
           ("scale", scaleNumber)]] in
  resampled_band.

(** [exports.loadS2ById = function (id)] *)
Definition loadS2ById (id : val) : ee :=
  let s2 := ee_ImageCollection (VStr "COPERNICUS/S2") in
  let s2_filtered := s2 |> invoke "filterMetadata" [VStr "PRODUCT_ID"; VStr "equals"; id] in
  s2_filtered.

(** [exports.loadL5ByPathRow = function (collection, path, row, startYear, endYear)];
    [collection] is an optional string. *)
Definition loadL5ByPathRow (collection : option string) (path row startYear endYear : val) : M val :=
  let collection := match collection with Some c => toLowerCase c | None => "raw" end in
  let filtered (id : string) : ee :=
    ee_ImageCollection (VStr id)
    |> invoke "filterDate" [VEE (ee_Date startYear); VEE (ee_Date endYear)]
    |> invoke "filter" [VEE (Static "ee.Filter.eq" [VStr "WRS_PATH"; path])]
    |> invoke "filter" [VEE (Static "ee.Filter.eq" [VStr "WRS_ROW"; row])] in
  if String.eqb collection "raw" then
    let l5_collection := filtered "LANDSAT/LT5_L1T" in mret (VEE l5_collection)
  else if String.eqb collection "toa" then
    let l5_collection := filtered "LANDSAT/LT5_L1T_TOA_FMASK" in mret (VEE l5_collection)
  else if String.eqb collection "sr" then
    let l5_collection := filtered "LANDSAT/LT05/C01/T1_SR" in mret (VEE l5_collection)
  else
    print (VStr collection_type_message) ;;
    mret VUndef.

(** [exports.loadL7ByPathRow = function (collection, path, row, startYear, endYear)];
    [collection] is an optional string. *)
Definition loadL7ByPathRow (collection : option string) (path row startYear endYear : val) : M val :=
  let collection := match collection with Some c => toLowerCase c | None => "raw" end in
  let filtered (id : string) : ee :=
    ee_ImageCollection (VStr id)
    |> invoke "filterDate" [VEE (ee_Date startYear); VEE (ee_Date endYear)]
    |> invoke "filter" [VEE (Static "ee.Filter.eq" [VStr "WRS_PATH"; path])]
    |> invoke "filter" [VEE (Static "ee.Filter.eq" [VStr "WRS_ROW"; row])] in
  if String.eqb collection "raw" then
    let l7_collection := filtered "LANDSAT/LT5_L1T" in mret (VEE l7_collection)
  else if String.eqb collection "toa" then
    let l7_collection := filtered "LANDSAT/LT5_L1T_TOA_FMASK" in mret (VEE l7_collection)
  else if String.eqb collection "sr" then
    let l7_collection := filtered "LANDSAT/LT05/C01/T1_SR" in mret (VEE l7_collection)
  else
    print (VStr collection_type_message) ;;
    mret VUndef.

(** [exports.loadL8ByPathRow = function (collection, path, row, startYear, endYear)];
    [collection] is an optional string. *)
Definition loadL8ByPathRow (collection : option string) (path row startYear endYear : val) : M val :=
  let collection := match collection with Some c => toLowerCase c | None => "raw" end in
  let filtered (id : string) : ee :=
    ee_ImageCollection (VStr id)
    |> invoke "filterDate" [VEE (ee_Date startYear); VEE (ee_Date endYear)]
    |> invoke "filter" [VEE (Static "ee.Filter.eq" [VStr "WRS_PATH"; path])]
    |> invoke "filter" [VEE (Static "ee.Filter.eq" [VStr "WRS_ROW"; row])] in
  if String.eqb collection "raw" then
    let l8_collection := filtered "LANDSAT/LT5_L1T" in mret (VEE l8_collection)
  else if String.eqb collection "toa" then
    let l8_collection := filtered "LANDSAT/LT5_L1T_TOA_FMASK" in mret (VEE l8_collection)
  else if String.eqb collection "sr" then
    let l8_collection := filtered "LANDSAT/LT05/C01/T1_SR" in mret (VEE l8_collection)
  else
    print (VStr collection_type_message) ;;
    mret VUndef.

(** [exports.s2Mosaic = function (startDate, endDate, roi, showMosaic)] *)
Definition s2Mosaic (startDate endDate roi showMosaic : val) : M val :=
  let s2 := ee_ImageCollection (VStr "COPERNICUS/S2") in
  let showMosaic := default showMosaic (VBool true) in
  let composite :=
    if is_undefined roi then
      s2
      |> invoke "filterDate" [VEE (ee_Date startDate); VEE (ee_Date endDate)]
      |> invoke "sort" [VStr "CLOUDY_PIXEL_PERCENTAGE"; VBool false]
      |> invoke "map" [VFun ["image"]
           (let image := Handle "image" in
            VEE (image |> addBands (image |> invoke "metadata" [VStr "system:time_start"])))]
      |> invoke "mosaic" []
    else
      s2
      |> invoke "filterDate" [VEE (ee_Date startDate); VEE (ee_Date endDate)]
      |> invoke "sort" [VStr "CLOUDY_PIXEL_PERCENTAGE"; VBool false]
      |> invoke "filterBounds" [roi]
      |> invoke "mosaic" [] in
  if strict_eq_true showMosaic then
    Map_addLayer (VEE composite)
      (VObj [("bands", VArr [VStr "B2"; VStr "B3"; VStr "B4"]); ("min", VNum 400); ("max", VNum 2811)])
      (VStr "S2_Mosaic") ;;
    mret (VEE composite)
  else mret (VEE composite).

(** [exports.landsat5Mosaic = function (startDate, endDate, roi, showMosaic)] *)
Definition landsat5Mosaic (startDate endDate roi showMosaic : val) : M val :=
  let l5 := ee_ImageCollection (VStr "LANDSAT/LT5_L1T_TOA") in
  let showMosaic := default showMosaic (VBool true) in
  let composite :=
    if is_undefined roi then
      l5
      |> invoke "filterDate" [VEE (ee_Date startDate); VEE (ee_Date endDate)]
      |> invoke "sort" [VStr "CLOUD_COVER"; VBool false]
      |> invoke "mosaic" []
    else
      l5
      |> invoke "filterBounds" [roi]
      |> invoke "filterDate" [VEE (ee_Date startDate); VEE (ee_Date endDate)]
      |> invoke "sort" [VStr "CLOUD_COVER"; VBool false]
      |> invoke "mosaic" [] in
  if strict_eq_true showMosaic then
    Map_addLayer (VEE composite)
      (VObj [("bands", VArr [VStr "B1"; VStr "B2"; VStr "B3"]); ("min", VNum 0); ("max", VNum 0.5);
             ("gamma", VArr [VNum 0.95; VNum 1.1; VNum 1])])
      (VStr "L5_Mosaic") ;;
    mret (VEE composite)
  else mret (VEE composite).

(** [exports.landsat7Mosaic = function (startDate, endDate, roi, showMosaic)] *)
Definition landsat7Mosaic (startDate endDate roi showMosaic : val) : M val :=
  let l7 := ee_ImageCollection (VStr "LANDSAT/LE7_L1T_TOA") in
  let showMosaic := default showMosaic (VBool true) in
  let composite :=
    if is_undefined roi then
      l7
      |> invoke "filterDate" [VEE (ee_Date startDate); VEE (ee_Date endDate)]
      |> invoke "sort" [VStr "CLOUD_COVER"; VBool false]
      |> invoke "mosaic" []
    else
      l7
      |> invoke "filterBounds" [roi]
      |> invoke "filterDate" [VEE (ee_Date startDate); VEE (ee_Date endDate)]
      |> invoke "sort" [VStr "CLOUD_COVER"; VBool false]
      |> invoke "mosaic" [] in
  if strict_eq_true showMosaic then
    Map_addLayer (VEE composite)
      (VObj [("bands", VArr [VStr "B1"; VStr "B2"; VStr "B3"]); ("min", VNum 0); ("max", VNum 0.5);
             ("gamma", VArr [VNum 0.95; VNum 1.1; VNum 1])])
      (VStr "L5_Mosaic") ;;
    mret (VEE composite)
  else mret (VEE composite).

(** [exports.landsat8Mosaic = function (startDate, endDate, roi, showMosaic)] *)
Definition landsat8Mosaic (startDate endDate roi showMosaic : val) : M val :=
  let l8 := ee_ImageCollection (VStr "LANDSAT/LC8_L1T_TOA") in
  let showMosaic := default showMosaic (VBool true) in
  let composite :=
    if is_undefined roi then
      l8
      |> invoke "filterDate" [VEE (ee_Date startDate); VEE (ee_Date endDate)]
      |> invoke "sort" [VStr "CLOUD_COVER"; VBool false]
      |> invoke "mosaic" []
    else
      l8
      |> invoke "filterBounds" [roi]
      |> invoke "filterDate" [VEE (ee_Date startDate); VEE (ee_Date endDate)]
      |> invoke "sort" [VStr "CLOUD_COVER"; VBool false]
      |> invoke "mosaic" [] in
  if strict_eq_true showMosaic then
    Map_addLayer (VEE composite)
      (VObj [("bands", VArr [VStr "B2"; VStr "B3"; VStr "B4"]); ("min", VNum 0); ("max", VNum 0.5);
             ("gamma", VArr [VNum 0.95; VNum 1.1; VNum 1])])
      (VStr "L5_Mosaic") ;;
    mret (VEE composite)
  else mret (VEE composite).

(** [exports.modisNdviMosaic = function (startDate, endDate, roi, showMosaic)] *)
Definition modisNdviMosaic (startDate endDate roi showMosaic : val) : M val :=
  let showMosaic := default showMosaic (VBool true) in
  let modis := ee_ImageCollection (VStr "MODIS/MOD13Q1")
    |> invoke "filterDate" [VEE (ee_Date startDate); VEE (ee_Date endDate)] in
  let rescale_ndvi := VFun ["img"]
    (let img := Handle "img" in
     let rescaled_NDVI := img |> select "NDVI" |> multiply (VNum 0.0001) |> rename "NDVI_rescaled" in
     VEE (img |> addBands rescaled_NDVI)) in
  let goodCollection := modis |> invoke "map" [rescale_ndvi] in
  let modis_ndvi_mosaic := goodCollection |> select "NDVI_rescaled" |> invoke "mosaic" [] in
  if strict_eq_true showMosaic then
    Map_addLayer (VEE modis_ndvi_mosaic) VUndef VUndef ;;
    mret (VEE modis_ndvi_mosaic)
  else mret (VEE modis_ndvi_mosaic).

(** [exports.max = function (image)] *)
Definition max (image : ee) : ee :=
  let maxValue := image |> invoke "reduce" [VEE (Static "ee.Reducer.max" [])] in
  maxValue.

(** [exports.min = function (image)] *)
Definition min (image : ee) : ee :=
  let minValue := image |> invoke "reduce" [VEE (Static "ee.Reducer.min" [])] in
  minValue.

(** [exports.ndviL5 = function (image)] *)
Definition ndviL5 (image : ee) : ee :=
  let l5_ndvi := image |> normalizedDifference ["B4"; "B3"] |> rename "NDVI" in
  let image_with_ndvi := image |> addBands l5_ndvi in
  image_with_ndvi.

(** [exports.ndviL7 = function (image)] *)
Definition ndviL7 (image : ee) : ee :=
  let l7_ndvi := image |> normalizedDifference ["B4"; "B3"] |> rename "NDVI" in
  let image_with_ndvi := image |> addBands l7_ndvi in
  image_with_ndvi.

(** [exports.ndviL8 = function (image)] *)
Definition ndviL8 (image : ee) : ee :=
  let l8_ndvi := image |> normalizedDifference ["B5"; "B4"] |> rename "NDVI" in
  let image_with_ndvi := image |> addBands l8_ndvi in
  image_with_ndvi.

(** [exports.ndviS2 = function (image)] *)
Definition ndviS2 (image : ee) : ee :=
  let s2_ndvi := image |> normalizedDifference ["B8"; "B4"] |> rename "NDVI" in
  let image_with_ndvi := image |> addBands s2_ndvi in
  image_with_ndvi.

(** [exports.propVeg = function (image)] *)
Definition propVeg (image : ee) : ee :=
  let ndvi := image |> select "NDVI" in
  let propVeg := ndvi |> expression
    "((ndvi - ndvi_min) / (ndvi_max - ndvi_min)) * ((ndvi - ndvi_min) / (ndvi_max - ndvi_min))"
    [("ndvi_max", VNum 0.7); ("ndvi_min", VNum 0.05); ("ndvi", VEE ndvi)]
    |> rename "propVeg" in
  let img_with_pv := image |> addBands propVeg in
  img_with_pv.

(** [exports.landSurfaceEmissivity = function (image)] *)
Definition landSurfaceEmissivity (image : ee) : ee :=
  let lse := image |> expression "(0.004 * pv_img) + 0.986"
    [("pv_img", VEE (image |> select "propVeg"))] |> rename "LSE" in
  let img_with_lse := image |> addBands lse in
  img_with_lse.

(** [exports.landSurfaceTemperature = function (image)] *)
Definition landSurfaceTemperature (image : ee) : ee :=
  let p := VNum 14380 in
  let lse_band := image |> select "LSE" in
  let lse_log := lse_band |> log in
  let lst := image |> expression "BT / 1 + B10 * (BT / p) * lse_log"
    [("p", p); ("BT", VEE (image |> select "Brightness_Temperature"));
     ("B10", VEE (image |> select "B10")); ("lse_log", VEE lse_log)] |> rename "LST" in
  let image_with_lst := image |> addBands lst in
  image_with_lst.

(** [exports.exportImg = function (image, outFilename, scale, maxPixels)] *)
Definition exportImg (image : ee) (outFilename scale maxPixels : val) : M val :=
  let scale := default scale (VNum 30) in
  let maxPixels := default maxPixels (VNum 1e10) in
  Export_image_toDrive
    (VObj [("image", VEE image); ("description", outFilename);
           ("scale", scale); ("maxPixels", maxPixels)]) ;;
  mret VUndef.

(** [exports.cloudMask = function (image)]; the guard
    [image === undefined] cannot fire on a handle. *)
Definition cloudMask (image : ee) : ee :=
  let mask := image |> invoke "select" [VArr [VStr "fmask"]] |> invoke "neq" [VNum 4] in
  image |> invoke "updateMask" [VEE mask].

(** [exports.pca = function (image, nbands, scale, maxPixels)];
    [nbands] is an optional integer count. *)
Definition pca (image : ee) (nbands : option Z) (scale maxPixels : val) : val :=
  let scale := default scale (VNum 30) in
  let nbands := match nbands with Some n => n | None => 12%Z end in
  let maxPixels := default maxPixels (VNum 1e9) in
  let bandNames := image |> invoke "bandNames" [] in
  let meanDict := image |> invoke "reduceRegion"
    [VObj [("reducer", VEE (Static "ee.Reducer.mean" []));
           ("scale", scale); ("maxPixels", maxPixels)]] in
  let means := ee_Image_constant (VEE (meanDict |> invoke "values" [VEE bandNames])) in
  let centered := image |> subtract (VEE means) in
  let pcNames := map (fun i : nat => VStr ("pc" ++ toString (Z.of_nat i + 1)))
                     (seq 0 (Z.to_nat nbands)) in
  let centered := centered |> invoke "toArray" [] in
  let covar := centered |> invoke "reduceRegion"
    [VObj [("reducer", VEE (Static "ee.Reducer.centeredCovariance" []));
           ("scale", scale); ("maxPixels", maxPixels)]] in
  let covarArray := ee_Array (VEE (covar |> get "array")) in
  let eigens := covarArray |> invoke "eigen" [] in
  let lambdas := eigens |> invoke "slice" [VNum 1; VNum 0; VNum 1] in
  let eivs := eigens |> invoke "slice" [VNum 1; VNum 1] in
  let centered := centered |> invoke "toArray" [VNum 1] in
  let pcs := ee_Image (VEE eivs) |> matrixMultiply centered
    |> invoke "arrayProject" [VArr [VNum 0]]
    |> invoke "arrayFlatten" [VArr [VArr pcNames]] in
  VArr [VEE pcs; VEE lambdas].

End exports.

(** ** The test zone: iteratively re-weighted MAD

    These functions are not exported.  They index and call methods on
    the results of other functions, so they are embedded with the
    JavaScript rules for property access and method calls on an
    arbitrary value, which can throw. *)

Inductive completion (A : Type) : Type :=
| Normal (a : A)
| Throw (e : string).
Arguments Normal {A} a.
Arguments Throw {A} e.

#[global] Instance completion_ret : MRet completion := fun A (a : A) => Normal a.
#[global] Instance completion_bind : MBind completion :=
  fun A B (k : A -> completion B) (m : completion A) =>
    match m with Normal a => k a | Throw e => Throw e end.

Definition TypeError : string := "TypeError".

(** [v[i]]: an element of a JavaScript array, a character of a string;
    reading a property of [undefined] or [null] throws; any other value,
    an Earth Engine object included, has no indexed property, and the
    read gives [undefined]. *)
Definition index (v : val) (i : nat) : completion val :=
  match v with
  | VArr items => Normal (nth i items VUndef)
  | VStr s => Normal (match String.get i s with
                      | Some c => VStr (String c EmptyString)
                      | None => VUndef
                      end)
  | VObj fields => Normal (match List.find (fun kv => String.eqb (fst kv) (toString (Z.of_nat i))) fields with
                           | Some kv => snd kv
                           | None => VUndef
                           end)
  | VUndef | VNull => Throw TypeError
  | _ => Normal VUndef
  end.

(** [v.m(args)] for a method [m] of the Earth Engine API: on an Earth
    Engine object it builds the call; on [undefined] (and on any value
    that has no such method) it throws. *)
Definition method (v : val) (m : string) (args : list val) : completion ee :=
  match v with
  | VEE e => Normal (e |> invoke m args)
  | _ => Throw TypeError
  end.

(** The JavaScript comma operator [(a, b)]: its value is that of [b]. *)
Definition comma (a b : val) : val := b.

(** [function chi2cdf (chi2, df)] *)
Definition chi2cdf (chi2 : ee) (df : val) : ee :=
  ee_Image (VEE (chi2 |> divide (VNum 2)))
  |> invoke "gammainc" [VEE (ee_Number df |> divide (VNum 2))].

(** [function addcoeffs (current, prev)] *)
Definition addcoeffs (current prev : val) : ee :=
  let coeff := ee_List current in
  let log := ee_List prev in
  log |> invoke "add" [VEE coeff].

(** [function geneiv (C, B)].  The last statement is
    [return (lambdas,eigenvecs)]: a parenthesised comma expression. *)
Definition geneiv (C B : val) : val :=
  let C := ee_Array C in
  let B := ee_Array B in
  let Li := ee_Array (VEE (B |> invoke "matrixCholeskyDecomposition" [] |> get "L"))
            |> matrixInverse in
  let Xa := Li |> matrixMultiply C |> matrixMultiply (Li |> matrixTranspose)
            |> invoke "eigen" [] in
  let lambdas := Xa |> invoke "slice" [VNum 1; VNum 0; VNum 1] |> matrixTranspose in
  let X := Xa |> invoke "slice" [VNum 1; VNum 1] |> matrixTranspose in
  let eigenvecs := Li |> matrixTranspose |> matrixMultiply X in
  comma (VEE lambdas) (VEE eigenvecs).

(** The generalized eigenproblem the way the comments of [geneiv] and
    its caller [imad1] describe it: the same computation, returning the
    pair of the eigenvalues and the eigenvectors. *)
Definition geneiv_pair (C B : val) : val :=
  let C := ee_Array C in
  let B := ee_Array B in
  let Li := ee_Array (VEE (B |> invoke "matrixCholeskyDecomposition" [] |> get "L"))
            |> matrixInverse in
  let Xa := Li |> matrixMultiply C |> matrixMultiply (Li |> matrixTranspose)
            |> invoke "eigen" [] in
  let lambdas := Xa |> invoke "slice" [VNum 1; VNum 0; VNum 1] |> matrixTranspose in
  let X := Xa |> invoke "slice" [VNum 1; VNum 1] |> matrixTranspose in
  let eigenvecs := Li |> matrixTranspose |> matrixMultiply X in
  VArr [VEE lambdas; VEE eigenvecs].

(** [function covarw (image, weights, maxPixels)] *)
Definition covarw (image weights : ee) (maxPixels : val) : val :=
  let maxPixels := default maxPixels (VNum 1e9) in
  let geometry := image |> invoke "geometry" [] in
  let bandNames := image |> invoke "bandNames" [] in
  let N := bandNames |> invoke "length" [] in
  let scale := image |> invoke "select" [VNum 0] |> invoke "projection" []
               |> invoke "nominalScale" [] in
  let weightsImage := image |> multiply (VEE (ee_Image_constant (VNum 0)))
                      |> invoke "add" [VEE weights] in
  let means := image |> addBands weightsImage |> invoke "reduceRegion"
    [VObj [("reducer", VEE (Static "ee.Reducer.mean" [] |> invoke "repeat" [VEE N]
                            |> invoke "splitWeights" []));
           ("scale", VEE scale); ("maxPixels", maxPixels)]]
    |> invoke "toArray" [] |> invoke "project" [VArr [VNum 1]] in
  let centered := image |> invoke "toArray" [] |> subtract (VEE means) in
  let B1 := centered |> invoke "bandNames" [] |> invoke "get" [VNum 0] in
  let b1 := weights |> invoke "bandNames" [] |> invoke "get" [VNum 0] in
  let nPixels := ee_Number (VEE (centered |> invoke "reduceRegion"
    [VObj [("reducer", VEE (Static "ee.Reducer.count" []));
           ("scale", VEE scale); ("maxPixels", maxPixels)]]
    |> invoke "get" [VEE B1])) in
  let sumWeights := ee_Number (VEE (weights |> invoke "reduceRegion"
    [VObj [("reducer", VEE (Static "ee.Reducer.sum" [])); ("geometry", VEE geometry);
           ("scale", VEE scale); ("maxPixels", maxPixels)]]
    |> invoke "get" [VEE b1])) in
  let covw := centered |> multiply (VEE (weights |> sqrt)) |> invoke "toArray" []
    |> invoke "reduceRegion"
    [VObj [("reducer", VEE (Static "ee.Reducer.centeredCovariance" []));
           ("geometry", VEE geometry); ("scale", VEE scale); ("maxPixels", maxPixels)]]
    |> get "array" in
  let covw := ee_Array (VEE covw) |> multiply (VEE nPixels) |> divide (VEE sumWeights) in
  VArr [VEE (centered |> invoke "arrayFlatten" [VArr [VEE bandNames]]); VEE covw].

Section imad.

(** The solver of the generalized eigenproblem the iteration calls. *)
Variable solver : val -> val -> val.

(** [function imad1 (current, prev)], with [geneiv] read as [solver]. *)
Definition imad1_with (current prev : val) : completion ee :=
  let image := ee_Image (VEE (ee_Dictionary prev |> get "image")) in
  let chi2 := ee_Image (VEE (ee_Dictionary prev |> get "chi2")) in
  let allrhos := ee_List (VEE (ee_Dictionary prev |> get "allrhos")) in
  let region := image |> invoke "geometry" [] in
  let nBands := image |> invoke "bandNames" [] |> invoke "length" [] |> divide (VNum 2) in
  let weights := chi2cdf chi2 (VEE nBands) |> subtract (VNum 1) |> multiply (VNum (-1)) in
  centeredImage ← index (covarw image weights VUndef) 0;
  covarArray ← index (covarw image weights VUndef) 1;
  bNames ← method centeredImage "bandNames" [];
  let bNames1 := bNames |> invoke "slice" [VNum 0; VEE nBands] in
  let bNames2 := bNames |> invoke "slice" [VEE nBands] in
  centeredImage1 ← method centeredImage "select" [VEE bNames1];
  centeredImage2 ← method centeredImage "select" [VEE bNames2];
  s11 ← method covarArray "slice" [VNum 0; VNum 0; VEE nBands];
  let s11 := s11 |> invoke "slice" [VNum 1; VNum 0; VEE nBands] in
  s22 ← method covarArray "slice" [VNum 0; VEE nBands];
  let s22 := s22 |> invoke "slice" [VNum 1; VEE nBands] in
  s12 ← method covarArray "slice" [VNum 0; VNum 0; VEE nBands];
  let s12 := s12 |> invoke "slice" [VNum 1; VEE nBands] in
  s21 ← method covarArray "slice" [VNum 0; VEE nBands];
  let s21 := s21 |> invoke "slice" [VNum 1; VNum 0; VEE nBands] in
  let c1 := s12 |> matrixMultiply (s22 |> matrixInverse) |> matrixMultiply s21 in
  let b1 := s11 in
  let c2 := s21 |> matrixMultiply (s11 |> matrixInverse) |> matrixMultiply s12 in
  let b2 := s22 in
  lambdas ← index (solver (VEE c1) (VEE b1)) 0;
  A ← index (solver (VEE c1) (VEE b1)) 1;
  B ← index (solver (VEE c2) (VEE b2)) 1;
  rhos ← method lambdas "sqrt" [];
  let rhos := rhos |> invoke "project" [VEE (ee_List (VArr [VNum 1]))] in
  let keys := Static "ee.List.sequence" [VEE nBands; VNum 1; VNum (-1)] in
  A ← method A "sort" [VArr [VEE keys]];
  B ← method B "sort" [VArr [VEE keys]];
  let rhos := rhos |> invoke "sort" [VEE keys] in
  let lastrhos := ee_Array (VEE (allrhos |> invoke "get" [VNum (-1)])) in
  let done := rhos |> subtract (VEE lastrhos) |> invoke "abs" []
    |> invoke "reduce" [VEE (Static "ee.Reducer.max" []); VEE (ee_List (VArr [VNum 0]))]
    |> invoke "lt" [VEE (ee_Number (VNum 0.001))]
    |> invoke "toList" []
    |> invoke "get" [VNum 0] in
  let allrhos := allrhos |> invoke "cat" [VArr [VEE (rhos |> invoke "toList" [])]] in
  let sigma2s := rhos |> subtract (VNum 1) |> multiply (VNum (-2)) |> invoke "toList" [] in
  let sigma2s := ee_Image_constant (VEE sigma2s) in
  let tmp := s11 |> invoke "matrixDiagonal" [] |> sqrt in
  let ones := tmp |> multiply (VNum 0) |> invoke "add" [VNum 1] in
  let tmp := ones |> divide (VEE tmp) |> invoke "matrixToDiag" [] in
  let s := tmp |> matrixMultiply s11 |> matrixMultiply A
    |> invoke "reduce" [VEE (Static "ee.Reducer.sum" []); VArr [VNum 0]]
    |> invoke "transpose" [] in
  let A := A |> matrixMultiply (s |> divide (VEE (s |> invoke "abs" []))
                                  |> invoke "matrixToDiag" []) in
  let tmp := A |> invoke "transpose" [] |> matrixMultiply s12 |> matrixMultiply B
    |> invoke "matrixDiagonal" [] in
  let tmp := tmp |> divide (VEE (tmp |> invoke "abs" [])) |> invoke "matrixToDiag" [] in
  let B := B |> matrixMultiply tmp in
  let centeredImage1Array := centeredImage1 |> invoke "toArray" [] |> invoke "toArray" [VNum 1] in
  let centeredImage2Array := centeredImage2 |> invoke "toArray" [] |> invoke "toArray" [VNum 1] in
  let U := ee_Image (VEE (A |> invoke "transpose" [])) |> matrixMultiply centeredImage1Array
    |> invoke "arrayProject" [VArr [VNum 0]]
    |> invoke "arrayFlatten" [VArr [VEE bNames1]] in
  let V := ee_Image (VEE (B |> invoke "transpose" [])) |> matrixMultiply centeredImage2Array
    |> invoke "arrayProject" [VArr [VNum 0]]
    |> invoke "arrayFlatten" [VArr [VEE bNames2]] in
  let MAD := U |> subtract (VEE V) in
  let chi2 := MAD |> invoke "pow" [VNum 2] |> divide (VEE sigma2s)
    |> invoke "reduce" [VEE (Static "ee.Reducer.sum" [])]
    |> invoke "clip" [VEE region] in
  mret (ee_Dictionary (VObj [("done", VEE done); ("image", VEE image);
                             ("allrhos", VEE allrhos); ("chi2", VEE chi2);
                             ("MAD", VEE MAD)])).

(** [function imad (current, prev)].  The arguments of
    [ee.Algorithms.If] are evaluated by JavaScript before the call, the
    call of [imad1] among them. *)
Definition imad_with (current prev : val) : completion ee :=
  let done := ee_Number (VEE (ee_Dictionary prev |> get "done")) in
  next ← imad1_with current prev;
  mret (Static "ee.Algorithms.If" [VEE done; prev; VEE next]).

End imad.

(** [imad1] and [imad] as the file has them, calling [geneiv]. *)
Definition imad1 : val -> val -> completion ee := imad1_with geneiv.
Definition imad : val -> val -> completion ee := imad_with geneiv.

(** ** The rest of the test zone: radiometric normalization *)

(** [function radcal (current, prev)] *)
Definition radcal (current prev : val) : ee :=
  let k := ee_Number current in
  let prev := ee_Dictionary prev in
  let image := ee_Image (VEE (prev |> get "image")) in
  let ncmask := ee_Image (VEE (prev |> get "ncmask")) in
  let nbands := ee_Number (VEE (prev |> get "nbands")) in
  let rect := Static "ee.Geometry" [VEE (prev |> get "rect")] in
  let coeffs := ee_List (VEE (prev |> get "coeffs")) in
  let normalized := ee_Image (VEE (prev |> get "normalized")) in
  let scale := image |> invoke "select" [VNum 0] |> invoke "projection" []
               |> invoke "nominalScale" [] in
  let image1 := image |> invoke "clip" [VEE rect]
    |> invoke "select" [VEE (k |> invoke "add" [VEE nbands]); VEE k]
    |> invoke "updateMask" [VEE ncmask]
    |> invoke "rename" [VArr [VStr "x"; VStr "y"]] in
  let means := image1 |> invoke "reduceRegion"
    [VObj [("reducer", VEE (Static "ee.Reducer.mean" []));
           ("scale", VEE scale); ("maxPixels", VNum 1e9)]]
    |> invoke "toArray" [] |> invoke "project" [VArr [VNum 0]] in
  let Xm := means |> invoke "get" [VArr [VNum 0]] in
  let Ym := means |> invoke "get" [VArr [VNum 1]] in
  let S := ee_Array (VEE (image1 |> invoke "toArray" [] |> invoke "reduceRegion"
    [VObj [("reducer", VEE (Static "ee.Reducer.covariance" []));
           ("geometry", VEE rect); ("scale", VEE scale); ("maxPixels", VNum 1e9)]]
    |> get "array")) in
  let R := S |> invoke "get" [VArr [VNum 0; VNum 1]]
    |> divide (VEE (S |> invoke "get" [VArr [VNum 0; VNum 0]]
                      |> multiply (VEE (S |> invoke "get" [VArr [VNum 1; VNum 1]]))
                      |> sqrt)) in
  let eivs := S |> invoke "eigen" [] in
  let e1 := eivs |> invoke "get" [VArr [VNum 0; VNum 1]] in
  let e2 := eivs |> invoke "get" [VArr [VNum 0; VNum 2]] in
  let b := e2 |> divide (VEE e1) in
  let a := Ym |> subtract (VEE (b |> multiply (VEE Xm))) in
  let coeffs := coeffs |> invoke "add" [VEE (ee_List (VArr [VEE b; VEE a; VEE R]))] in
  let normalized := normalized |> addBands
    (image |> invoke "select" [VEE (k |> invoke "add" [VEE nbands])]
           |> multiply (VEE b) |> invoke "add" [VEE a]) in
  ee_Dictionary (VObj [("image", VEE image); ("ncmask", VEE ncmask); ("nbands", VEE nbands);
                       ("rect", VEE rect); ("coeffs", VEE coeffs);
                       ("normalized", VEE normalized)]).

(** A named function passed to [iterate]: the client applies it to the
    two placeholders of the iteration to obtain the body it sends to the
    platform, as it does with the callbacks of [map]. *)
Definition iteration (step : val -> val -> completion ee) : completion val :=
  body ← step (VEE (Handle "current")) (VEE (Handle "prev"));
  mret (VFun ["current"; "prev"] (VEE body)).

Section radcalbatch.

Variable solver : val -> val -> val.

(** [function radcalbatch (current, prev)], with [geneiv] read as
    [solver]. *)
Definition radcalbatch_with (current prev : val) : completion ee :=
  let prev := ee_Dictionary prev in
  let target := ee_Image current in
  let reference := ee_Image (VEE (prev |> get "reference")) in
  let normalizedimages := ee_List (VEE (prev |> get "normalizedimages")) in
  let niter := ee_Number (VEE (prev |> get "niter")) in
  let rect := Static "ee.Geometry" [VEE (prev |> get "rect")] in
  let log := ee_List (VEE (prev |> get "log")) in
  let nbands := reference |> invoke "bandNames" [] |> invoke "length" [] in
  let inputlist := Static "ee.List.sequence" [VNum 1; VEE niter] in
  let image := reference |> addBands target in
  let first := ee_Dictionary (VObj
    [("done", VEE (ee_Number (VNum 0)));
     ("image", VEE (image |> invoke "clip" [VEE rect]));
     ("allrhos", VArr [VEE (Static "ee.List.sequence" [VNum 1; VEE nbands])]);
     ("chi2", VEE (ee_Image_constant (VNum 0)));
     ("MAD", VEE (ee_Image_constant (VNum 0)))]) in
  imad_step ← iteration (imad_with solver);
  let result := ee_Dictionary (VEE (inputlist |> invoke "iterate" [imad_step; VEE first])) in
  let chi2 := ee_Image (VEE (result |> get "chi2")) |> invoke "rename" [VArr [VStr "chi2"]] in
  let allrhos := ee_List (VEE (result |> get "allrhos")) in
  let ncmask := chi2cdf chi2 (VEE nbands) |> invoke "lt" [VEE (ee_Image_constant (VNum 0.05))] in
  let inputlist1 := Static "ee.List.sequence" [VNum 0; VEE (nbands |> subtract (VNum 1))] in
  let first := ee_Dictionary (VObj
    [("image", VEE image); ("ncmask", VEE ncmask); ("nbands", VEE nbands);
     ("rect", VEE rect); ("coeffs", VEE (ee_List (VArr [])));
     ("normalized", VEE (Static "ee.Image" []))]) in
  radcal_step ← iteration (fun current prev => mret (radcal current prev));
  let result := ee_Dictionary (VEE (inputlist1 |> invoke "iterate" [radcal_step; VEE first])) in
  let coeffs := ee_List (VEE (result |> get "coeffs")) in
  let ninvar := Static "ee.String" [VEE (ncmask |> invoke "reduceRegion"
    [VObj [("reducer", VEE (Static "ee.Reducer.sum" [] |> invoke "unweighted" []));
           ("maxPixels", VNum 1e9)]]
    |> invoke "toArray" [] |> invoke "project" [VArr [VNum 0]])] in
  let log := log |> invoke "add" [VEE (target |> get "system:id")] in
  let iters := allrhos |> invoke "length" [] |> subtract (VNum 1) in
  let log := log |> invoke "add" [VEE (Static "ee.Algorithms.If"
    [VEE (iters |> invoke "eq" [VEE niter]);
     VArr [VStr "No convergence, iterations:"; VEE iters];
     VArr [VStr "Iterations:"; VEE iters]])] in
  let log := log |> invoke "add" [VArr [VStr "Invariant pixels:"; VEE ninvar]] in
  addcoeffs_step ← iteration (fun current prev => mret (addcoeffs current prev));
  let log := ee_List (VEE (coeffs |> invoke "iterate" [addcoeffs_step; VEE log])) in
  let sel := Static "ee.List.sequence" [VNum 1; VEE nbands] in
  let normalized := ee_Image (VEE (result |> get "normalized")) |> invoke "select" [VEE sel] in
  let normalizedimages := normalizedimages |> invoke "add" [VEE normalized] in
  mret (ee_Dictionary (VObj
    [("reference", VEE reference); ("rect", VEE rect); ("niter", VEE niter);
     ("log", VEE log); ("normalizedimages", VEE normalizedimages)])).

End radcalbatch.

(** [radcalbatch] as the file has it, calling [geneiv] through [imad]. *)
Definition radcalbatch : val -> val -> completion ee := radcalbatch_with geneiv.

(** ** The interface of the module: one request per exported function *)

Inductive request : Type :=
| call_svm (image : ee) (trainingData fieldName kernelType scale : val)
| call_cart (image : ee) (trainingData fieldName scale : val)
| call_rf (image : ee) (trainingData fieldName numOfTrees : val)
| call_kmeans (image : ee) (roi numClusters scale numPixels : val)
| call_simpleNDVIChangeDetection (img1 img2 : ee) (sensor : string) (threshold : val)
| call_simpleNDWIChangeDetection (img1 img2 : ee) (sensor : string) (threshold : val)
| call_simpleNDBIChangeDetection (img1 img2 : ee) (sensor : string) (threshold : val)
| call_texture (image : ee) (radius : val)
| call_majority (image : ee) (radius : val)
| call_color (_color : string)
| call_plotRGB (image : ee) (title : val)
| call_plotNDVI (image : ee) (title : val)
| call_plotNDWI (image : ee) (title : val)
| call_plotClass (image : ee) (numClasses title : val)
| call_landsatIndices (image : ee) (sensor : string) (index : val)
| call_sentinel2Indices (image : ee) (index : option string)
| call_loadImg (collection : option string) (year : option Z) (roi cloudFree : val)
| call_toaRadiance (image : ee) (band : Z)
| call_toaReflectance (image : ee) (band : Z)
| call_toaReflectanceL8 (image : ee) (band : Z) (_solarAngle : val)
| call_brightnessTempL5_K (image : ee)
| call_brightnessTempL5_C (image : ee)
| call_brightnessTempL7_K (image : ee)
| call_brightnessTempL7_C (image : ee)
| call_brightnessTempL8_K (image : ee) (single : val)
| call_brightnessTempL8_C (image : ee) (single : val)
| call_resample (image : ee) (scaleNumber : val)
| call_resampleBand (band : ee) (scaleNumber : val)
| call_loadS2ById (id : val)
| call_loadL5ByPathRow (collection : option string) (path row startYear endYear : val)
| call_loadL7ByPathRow (collection : option string) (path row startYear endYear : val)
| call_loadL8ByPathRow (collection : option string) (path row startYear endYear : val)
| call_s2Mosaic (startDate endDate roi showMosaic : val)
| call_landsat5Mosaic (startDate endDate roi showMosaic : val)
| call_landsat7Mosaic (startDate endDate roi showMosaic : val)
| call_landsat8Mosaic (startDate endDate roi showMosaic : val)
| call_modisNdviMosaic (startDate endDate roi showMosaic : val)
| call_max (image : ee)
| call_min (image : ee)
| call_ndviL5 (image : ee)
| call_ndviL7 (image : ee)
| call_ndviL8 (image : ee)
| call_ndviS2 (image : ee)
| call_propVeg (image : ee)
| call_landSurfaceEmissivity (image : ee)
| call_landSurfaceTemperature (image : ee)
| call_exportImg (image : ee) (outFilename scale maxPixels : val)
| call_cloudMask (image : ee)
| call_pca (image : ee) (nbands : option Z) (scale maxPixels : val).

(** The call of an exported function: its value and its effect on the
    environment. *)
Definition run (r : request) : M val :=
  match r with
  | call_svm image trainingData fieldName kernelType scale =>
      mret (VEE (exports.svm image trainingData fieldName kernelType scale))
  | call_cart image trainingData fieldName scale =>
      mret (VEE (exports.cart image trainingData fieldName scale))
  | call_rf image trainingData fieldName numOfTrees =>
      mret (VEE (exports.rf image trainingData fieldName numOfTrees))
  | call_kmeans image roi numClusters scale numPixels =>
      exports.kmeans image roi numClusters scale numPixels
  | call_simpleNDVIChangeDetection img1 img2 sensor threshold =>
      exports.simpleNDVIChangeDetection img1 img2 sensor threshold
  | call_simpleNDWIChangeDetection img1 img2 sensor threshold =>
      exports.simpleNDWIChangeDetection img1 img2 sensor threshold
  | call_simpleNDBIChangeDetection img1 img2 sensor threshold =>
      exports.simpleNDBIChangeDetection img1 img2 sensor threshold
  | call_texture image radius => mret (VEE (exports.texture image radius))
  | call_majority image radius => mret (VEE (exports.majority image radius))
  | call_color _color => exports.color _color
  | call_plotRGB image title => exports.plotRGB image title
  | call_plotNDVI image title => exports.plotNDVI image title
  | call_plotNDWI image title => exports.plotNDWI image title
  | call_plotClass image numClasses title => exports.plotClass image numClasses title
  | call_landsatIndices image sensor index => exports.landsatIndices image sensor index
  | call_sentinel2Indices image index => mret (exports.sentinel2Indices image index)
  | call_loadImg collection year roi cloudFree => exports.loadImg collection year roi cloudFree
  | call_toaRadiance image band => mret (VEE (exports.toaRadiance image band))
  | call_toaReflectance image band => mret (VEE (exports.toaReflectance image band))
  | call_toaReflectanceL8 image band _solarAngle => exports.toaReflectanceL8 image band _solarAngle
  | call_brightnessTempL5_K image => mret (VEE (exports.brightnessTempL5_K image))
  | call_brightnessTempL5_C image => mret (VEE (exports.brightnessTempL5_C image))
  | call_brightnessTempL7_K image => mret (VEE (exports.brightnessTempL7_K image))
  | call_brightnessTempL7_C image => mret (VEE (exports.brightnessTempL7_C image))
  | call_brightnessTempL8_K image single => mret (VEE (exports.brightnessTempL8_K image single))
  | call_brightnessTempL8_C image single => mret (VEE (exports.brightnessTempL8_C image single))
  | call_resample image scaleNumber => mret (VEE (exports.resample image scaleNumber))
  | call_resampleBand band scaleNumber => mret (VEE (exports.resampleBand band scaleNumber))
  | call_loadS2ById id => mret (VEE (exports.loadS2ById id))
  | call_loadL5ByPathRow collection path row startYear endYear =>
      exports.loadL5ByPathRow collection path row startYear endYear
  | call_loadL7ByPathRow collection path row startYear endYear =>
      exports.loadL7ByPathRow collection path row startYear endYear
  | call_loadL8ByPathRow collection path row startYear endYear =>
      exports.loadL8ByPathRow collection path row startYear endYear
  | call_s2Mosaic startDate endDate roi showMosaic =>
      exports.s2Mosaic startDate endDate roi showMosaic
  | call_landsat5Mosaic startDate endDate roi showMosaic =>
      exports.landsat5Mosaic startDate endDate roi showMosaic
  | call_landsat7Mosaic startDate endDate roi showMosaic =>
      exports.landsat7Mosaic startDate endDate roi showMosaic
  | call_landsat8Mosaic startDate endDate roi showMosaic =>
      exports.landsat8Mosaic startDate endDate roi showMosaic
  | call_modisNdviMosaic startDate endDate roi showMosaic =>
      exports.modisNdviMosaic startDate endDate roi showMosaic
  | call_max image => mret (VEE (exports.max image))
  | call_min image => mret (VEE (exports.min image))
  | call_ndviL5 image => mret (VEE (exports.ndviL5 image))
  | call_ndviL7 image => mret (VEE (exports.ndviL7 image))
  | call_ndviL8 image => mret (VEE (exports.ndviL8 image))
  | call_ndviS2 image => mret (VEE (exports.ndviS2 image))
  | call_propVeg image => mret (VEE (exports.propVeg image))
  | call_landSurfaceEmissivity image => mret (VEE (exports.landSurfaceEmissivity image))
  | call_landSurfaceTemperature image => mret (VEE (exports.landSurfaceTemperature image))
  | call_exportImg image outFilename scale maxPixels =>
      exports.exportImg image outFilename scale maxPixels
  | call_cloudMask image => mret (VEE (exports.cloudMask image))
  | call_pca image nbands scale maxPixels => mret (exports.pca image nbands scale maxPixels)
  end.

(** A session: the requests of a script, run one after the other from
    the environment [s]. *)
Fixpoint session (rs : list request) (s : Env) : Env :=
  match rs with
  | [] => s
  | r :: rs => session rs (snd (run r s))
  end.

(** ** Observations on requests and results *)

(** The string literals passed, at any depth, in the arguments of the
    calls that make up an Earth Engine object (method names, function
    paths and input handles are not arguments). *)
Fixpoint ee_strings (e : ee) : list string :=
  match e with
  | Handle _ => []
  | Static _ args => flat_map val_strings args
  | Call recv _ args => ee_strings recv ++ flat_map val_strings args
  end
with val_strings (v : val) : list string :=
  match v with
  | VStr s => [s]
  | VArr items => flat_map val_strings items
  | VObj fields => flat_map (fun kv => match kv with (_, x) => val_strings x end) fields
  | VFun _ body => val_strings body
  | VEE e => ee_strings e
  | _ => []
  end.

Definition mentions (s : string) (e : ee) : bool :=
  existsb (String.eqb s) (ee_strings e).

(** The receiver, the method and the arguments of the outermost call of
    an Earth Engine object. *)
Definition outer_call (e : ee) : option (ee * string * list val) :=
  match e with
  | Call recv m args => Some (recv, m, args)
  | _ => None
  end.

(** The band called [name] among the bands a result of the form
    [image.addBands(band)] or [image.addBands([band, ...])] adds to
    [image]: the added object whose last call is [rename(name)]. *)
Definition renamed_to (name : string) (v : val) : bool :=
  match v with
  | VEE (Call _ "rename" [VStr n]) => String.eqb n name
  | _ => false
  end.

Definition added_band (name : string) (result : val) : option val :=
  match result with
  | VEE (Call _ "addBands" [VArr bands]) => List.find (renamed_to name) bands
  | VEE (Call _ "addBands" [band]) => if renamed_to name band then Some band else None
  | _ => None
  end.

(** The names of the bands a result of the form [image.addBands(...)]
    adds, in order. *)
Definition band_name (v : val) : option string :=
  match v with
  | VEE (Call _ "rename" [VStr n]) => Some n
  | _ => None
  end.

Definition added_band_names (result : val) : list (option string) :=
  match result with
  | VEE (Call _ "addBands" [VArr bands]) => map band_name bands
  | VEE (Call _ "addBands" [band]) => [band_name band]
  | _ => []
  end.

(** The two bands of a band [image.normalizedDifference([a, b]).rename(name)]. *)
Definition band_pair (band : option val) : option (list val) :=
  match band with
  | Some (VEE (Call (Call _ "normalizedDifference" [VArr bands]) "rename" _)) => Some bands
  | _ => None
  end.

(** The [case] labels of the [switch] of [sentinel2Indices]. *)
Definition sentinel2_index_names : list string :=
  ["ndvi"; "ndwi"; "ndbi"; "mndwi"; "mndvi"; "ngrdi"; "ndsi"; "ri"; "ndmi";
   "gndvi"; "bndvi"; "nbr"; "ppr"; "ndre"; "lci"; "savi"; "gosavi"; "evi";
   "evi2"; "gemi"; "rvi"; "logr"; "tvi"].

Definition sentinel2_supported (index : string) : bool :=
  existsb (String.eqb index) sentinel2_index_names.

(** The indices of [sentinel2Indices]: the label of each [case] of its
    [switch] with the band the case computes and adds to the image. *)
Definition sentinel2_index_bands (image : ee) : list (string * ee) :=
  let nd (name : string) (bands : list string) : ee :=
    image |> normalizedDifference bands |> rename name in
  let band (b : string) : val := VEE (image |> select b) in
  [("ndvi", nd "NDVI" ["B8"; "B4"]);
   ("ndwi", nd "NDWI" ["B3"; "B8"]);
   ("ndbi", nd "NDBI" ["B11"; "B8"]);
   ("mndwi", nd "MNDWI" ["B3"; "B12"]);
   ("mndvi", nd "MNDVI" ["B9"; "B12"]);
   ("ngrdi", nd "NGRDI" ["B3"; "B5"]);
   ("ndsi", nd "NDSI" ["B11"; "B12"]);
   ("ri", nd "RI" ["B5"; "B3"]);
   ("ndmi", nd "NDMI" ["B9"; "B12"]);
   ("gndvi", nd "GNDVI" ["B9"; "B3"]);
   ("bndvi", nd "BNDVI" ["B9"; "B1"]);
   ("nbr", nd "NBR" ["B9"; "B12"]);
   ("ppr", nd "PPR" ["B9"; "B12"]);
   ("ndre", nd "NDRE" ["B9"; "B5"]);
   ("lci", nd "LCI" ["B8"; "B5"]);
   ("savi", image |> expression "(1 + L) * (NIR - RED) / (NIR + RED + L)"
              [("NIR", band "B8"); ("RED", band "B4"); ("L", VNum 0.5)]
            |> rename "SAVI");
   ("gosavi", image |> expression "(NIR - GREEN) / (NIR + GREEN + Y)"
                [("NIR", band "B8"); ("GREEN", band "B3"); ("Y", VNum 0.16)]
              |> rename "GOSAVI");
   ("evi", image |> expression "2.5 * ((NIR - RED) / (NIR + 6 * RED - 7.5 * BLUE + 1))"
             [("NIR", band "B8"); ("RED", band "B4"); ("BLUE", band "B2")]
           |> rename "EVI");
   ("evi2", image |> expression "2.4 * ((NIR - RED) / (NIR + 2.4 * RED + 1))"
              [("NIR", band "B8"); ("RED", band "B4")]
            |> rename "EVI2");
   ("gemi", image |> expression exports.GEMI_expr
              [("RED", band "B4"); ("NIR", band "B8");
               ("RED_POW", VEE (image |> select "B4" |> invoke "pow" [VNum 2]));
               ("NIR_POW", VEE (image |> select "B8" |> invoke "pow" [VNum 2]))]
            |> rename "GEMI");
   ("rvi", image |> expression "RED / NIR" [("NIR", band "B8"); ("RED", band "B4")]
           |> rename "RVI");
   ("logr", image |> expression "RED / NIR" [("NIR", band "B8"); ("RED", band "B4")]
            |> log |> rename "logR");
   ("tvi", image |> expression "NDVI + 0.5"
             [("NDVI", VEE (image |> normalizedDifference ["B8"; "B4"]))]
           |> sqrt |> rename "TVI")].

(** A six-digit hexadecimal colour. *)
Definition hex_digit (c : ascii) : bool :=
  let n := nat_of_ascii c in
  ((48 <=? n) && (n <=? 57) || (97 <=? n) && (n <=? 102))%nat.

Definition hex6 (v : val) : bool :=
  match v with
  | VStr s => (String.length s =? 6)%nat && forallb hex_digit (list_ascii_of_string s)
  | _ => false
  end.

(** The colour names of the documentation of [color], with the entry of
    the [COLOR] object each one stands for. *)
Definition color_names : list (string * string) :=
  [("water", "WATER"); ("forest", "FOREST"); ("pasture", "PASTURE");
   ("urban", "URBAN"); ("shadow", "SHADOW"); ("null", "NULL")].

Definition color_key (name : string) : option string :=
  option_map snd (List.find (fun kv => String.eqb name (fst kv)) color_names).

(** The sensors the index functions know. *)
Definition landsat_or_s2 (sensor : string) : bool :=
  String.eqb sensor "L8" || String.eqb sensor "L5" || String.eqb sensor "L7"
  || String.eqb sensor "S2".

Definition landsat (sensor : string) : bool :=
  String.eqb sensor "L8" || String.eqb sensor "L5" || String.eqb sensor "L7".

(** The collection types of the [loadL*ByPathRow] functions. *)
Definition path_row_collection (collection : option string) : bool :=
  match collection with
  | None => true
  | Some c => String.eqb (toLowerCase c) "raw" || String.eqb (toLowerCase c) "toa"
              || String.eqb (toLowerCase c) "sr"
  end.

(** The requests that are answered with a handle. *)
Definition returns_handle (r : request) : bool :=
  match r with
  | call_simpleNDVIChangeDetection _ _ sensor _
  | call_simpleNDWIChangeDetection _ _ sensor _
  | call_simpleNDBIChangeDetection _ _ sensor _ => landsat_or_s2 sensor
  | call_landsatIndices _ sensor index =>
      if not_nullish index then
        if strict_eq_str index "NRVI" then landsat sensor
        else if strict_eq_str index "NDVI" || strict_eq_str index "NDWI"
                || strict_eq_str index "NDBI" || strict_eq_str index "EVI"
                || strict_eq_str index "SAVI" || strict_eq_str index "GOSAVI"
        then landsat_or_s2 sensor
        else false
      else landsat_or_s2 sensor
  | call_sentinel2Indices _ index =>
      match index with
      | Some index => sentinel2_supported (toLowerCase index)
      | None => true
      end
  | call_loadL5ByPathRow collection _ _ _ _
  | call_loadL7ByPathRow collection _ _ _ _
  | call_loadL8ByPathRow collection _ _ _ _ => path_row_collection collection
  | call_color _
  | call_plotRGB _ _ | call_plotNDVI _ _ | call_plotNDWI _ _ | call_plotClass _ _ _
  | call_exportImg _ _ _ _
  | call_pca _ _ _ _ => false
  | _ => true
  end.

(** The entry [key] of a dictionary built as [ee.Dictionary({...})]. *)
Definition dictionary_entry (key : string) (e : ee) : option val :=
  match e with
  | Static "ee.Dictionary" [VObj fields] =>
      option_map snd (List.find (fun kv => String.eqb key (fst kv)) fields)
  | _ => None
  end.

(** The convergence test of [imad1] on the correlations [rhos] of this
    iteration and [lastrhos] of the previous one: the largest absolute
    difference is below 0.001. *)
Definition converged (rhos lastrhos : ee) : ee :=
  rhos |> subtract (VEE lastrhos) |> invoke "abs" []
  |> invoke "reduce" [VEE (Static "ee.Reducer.max" []); VEE (ee_List (VArr [VNum 0]))]
  |> invoke "lt" [VEE (ee_Number (VNum 0.001))]
  |> invoke "toList" []
  |> invoke "get" [VNum 0].

(** The kinds of value a call can return. *)
Inductive kind : Type := KHandle | KUndefined | KString | KArray | KOther.

Definition kind_of (v : val) : kind :=
  match v with
  | VEE _ => KHandle
  | VUndef => KUndefined
  | VStr _ => KString
  | VArr _ => KArray
  | _ => KOther
  end.

(** The kind of value each request is answered with: [color] answers
    with a string, [pca] with a JavaScript array, and every other
    function with a handle or with [undefined]. *)
Definition answer (r : request) : kind :=
  match r with
  | call_color _ => KString
  | call_pca _ _ _ _ => KArray
  | _ => if returns_handle r then KHandle else KUndefined
  end.

(** ** Dependence on the environment *)

(** A computation leaves the [COLOR] object as it found it. *)
Definition preserves_COLOR {A} (m : M A) : Prop :=
  forall s, env_COLOR (snd (m s)) = env_COLOR s.

(** The value of a computation is determined by the [COLOR] object
    alone: the console, the map layers and the export queue, which is
    all that earlier calls can have changed, do not matter. *)
Definition value_from_COLOR {A} (m : M A) : Prop :=
  forall s s', env_COLOR s = env_COLOR s' -> fst (m s) = fst (m s').

Definition stateless {A} (m : M A) : Prop :=
  preserves_COLOR m /\ value_from_COLOR m.

(** ** Further observations *)

(** The keys of a dictionary built as [ee.Dictionary({...})]. *)
Definition dictionary_keys (e : ee) : list string :=
  match e with
  | Static "ee.Dictionary" [VObj fields] => map fst fields
  | _ => []
  end.

(** The keys read, anywhere in an Earth Engine object, by a call
    [d.get(key)] on a receiver [d] of the form [ee.Dictionary(...)]. *)
Fixpoint ee_reads (e : ee) : list string :=
  match e with
  | Handle _ => []
  | Static _ args => flat_map val_reads args
  | Call recv m args =>
      (match recv, args with
       | Static path _, [VStr key] =>
           if String.eqb path "ee.Dictionary" && String.eqb m "get" then [key] else []
       | _, _ => []
       end ++ ee_reads recv ++ flat_map val_reads args)%list
  end
with val_reads (v : val) : list string :=
  match v with
  | VArr items => flat_map val_reads items
  | VObj fields => flat_map (fun kv => match kv with (_, x) => val_reads x end) fields
  | VFun _ body => val_reads body
  | VEE e => ee_reads e
  | _ => []
  end.

(** The band names selected, anywhere in an Earth Engine object, by a
    call [select(name)]. *)
Fixpoint ee_selected (e : ee) : list string :=
  match e with
  | Handle _ => []
  | Static _ args => flat_map val_selected args
  | Call recv m args =>
      (match args with
       | [VStr name] => if String.eqb m "select" then [name] else []
       | _ => []
       end ++ ee_selected recv ++ flat_map val_selected args)%list
  end
with val_selected (v : val) : list string :=
  match v with
  | VArr items => flat_map val_selected items
  | VObj fields => flat_map (fun kv => match kv with (_, x) => val_selected x end) fields
  | VFun _ body => val_selected body
  | VEE e => ee_selected e
  | _ => []
  end.

(** Every string of the first list is in the second. *)
Definition all_in (xs ys : list string) : bool :=
  forallb (fun x => existsb (String.eqb x) ys) xs.

(** The [case] labels of the [switch] of [landsatIndices]. *)
Definition landsat_index_names : list string :=
  ["NDVI"; "NDWI"; "NDBI"; "NRVI"; "EVI"; "SAVI"; "GOSAVI"].

(** The component names [pca] hands to [arrayFlatten]. *)
Definition pca_names (result : val) : list val :=
  match result with
  | VArr [VEE (Call _ "arrayFlatten" [VArr [VArr names]]); _] => names
  | _ => []
  end.

(** The identifier of the image collection a loaded collection is
    filtered from. *)
Fixpoint collection_id (e : ee) : option val :=
  match e with
  | Static "ee.ImageCollection" [id] => Some id
  | Call recv _ _ => collection_id recv
  | _ => None
  end.

(** The expression and the variables of a band
    [image.expression(expr, vars).rename(name)]. *)
Definition expression_of (band : option val) : option (string * list (string * val)) :=
  match band with
  | Some (VEE (Call (Call _ "expression" [VStr expr; VObj vars]) "rename" _)) =>
      Some (expr, vars)
  | _ => None
  end.

Definition expression_var (key : string) (band : option val) : option val :=
  match expression_of band with
  | Some (_, vars) => option_map snd (List.find (fun kv => String.eqb key (fst kv)) vars)
  | None => None
  end.

(** The methods called, one on the result of the other, to build an
    Earth Engine object, the first call first. *)
Fixpoint method_chain (e : ee) : list string :=
  match e with
  | Call recv m _ => (method_chain recv ++ [m])%list
  | _ => []
  end.

(** A computation only adds to the console and to the map, and queues
    the export tasks [tasks]. *)
Definition adds_tasks {A} (tasks : list val) (m : M A) : Prop :=
  forall s, exists out layers,
    snd (m s) = mkEnv (env_COLOR s) (console s ++ out) (map_layers s ++ layers)
                      (export_tasks s ++ tasks).

(** The export task a request queues. *)
Definition exported (r : request) : list val :=
  match r with
  | call_exportImg image outFilename scale maxPixels =>
      [VObj [("image", VEE image); ("description", outFilename);
             ("scale", default scale (VNum 30));
             ("maxPixels", default maxPixels (VNum 1e10))]]
  | _ => []
  end.

(** The sample a classification was trained on: the first argument of
    [train], or its [features] entry. *)
Definition training_sample (classified : ee) : option val :=
  match classified with
  | Call _ "classify" [VEE (Call _ "train" [VObj fields])] =>
      option_map snd (List.find (fun kv => String.eqb "features" (fst kv)) fields)
  | Call _ "classify" [VEE (Call _ "train" (sample :: _))] => Some sample
  | _ => None
  end.



(** The calls whose answer the guards of the code settle.
    [landsatIndices] compares its index with its seven names in upper
    case and its [switch] has no [default] case, while its usage note
    passes ['savi']: a call with an index that is none of the seven
    names is left out. *)
Definition settled (r : request) : bool :=
  match r with
  | call_landsatIndices _ _ index =>
      negb (not_nullish index) || existsb (strict_eq_str index) landsat_index_names
  | _ => true
  end.

(** * Properties *)

(** ** Lower-casing *)

Lemma lower_ascii_idem (c : ascii) : lower_ascii (lower_ascii c) = lower_ascii c.
Proof.
  destruct c as [[] [] [] [] [] [] [] []]; reflexivity.
Qed.

Lemma toLowerCase_idem (s : string) : toLowerCase (toLowerCase s) = toLowerCase s.
Proof.
  induction s as [|c r IH]; simpl; [reflexivity|].
  now rewrite lower_ascii_idem, IH.
Qed.

Example toLowerCase_mixed : toLowerCase "WaTer-42" = "water-42".
Proof. reflexivity. Qed.

(** ** The colour table *)

Example color_water : fst (exports.color "Water" loaded) = VStr "0066ff".
Proof. reflexivity. Qed.

Example color_unknown : fst (exports.color "sand" loaded) = VStr exports.color_error.
Proof. reflexivity. Qed.

(** The entries of the [COLOR] object are six-digit hexadecimal
    colours. *)
Lemma COLOR_entries_hex6 :
  forallb (fun kv => match COLOR !! snd kv with
                     | Some c => hex6 (VStr c)
                     | None => false
                     end) color_names = true.
Proof. vm_compute. reflexivity. Qed.

(** What [color] answers, by the lower-cased name: the entry of the
    [COLOR] object for one of the six names, the error message for any
    other string. *)
Lemma color_value (s : string) (out : list val) (layers : list (val * val * val))
    (tasks : list val) :
  exports.color s (mkEnv COLOR out layers tasks) =
  (match color_key (toLowerCase s) with
   | Some key => match COLOR !! key with Some c => VStr c | None => VUndef end
   | None => VStr exports.color_error
   end, mkEnv COLOR out layers tasks).
Proof.
  unfold exports.color, color_key, color_names. cbn [List.find fst snd option_map].
  repeat (destruct (String.eqb (toLowerCase s) _); [reflexivity|]).
  reflexivity.
Qed.

(** C10: [color] ignores the case of its argument and answers every
    string: one of the six names, in any case, gives the six-digit
    hexadecimal entry of the [COLOR] object, and every other string
    gives the fixed message that begins with [Error:], as an ordinary
    returned string; nothing is printed and the environment is left as
    it was. *)
Theorem color_case_insensitive_total (s : string) (out : list val)
    (layers : list (val * val * val)) (tasks : list val) :
  let env := mkEnv COLOR out layers tasks in
  fst (exports.color s env) = fst (exports.color (toLowerCase s) env)
  /\ snd (exports.color s env) = env
  /\ match color_key (toLowerCase s) with
     | Some key =>
         (exists c, COLOR !! key = Some c /\ fst (exports.color s env) = VStr c)
         /\ hex6 (fst (exports.color s env)) = true
     | None =>
         fst (exports.color s env) = VStr exports.color_error
         /\ String.prefix "Error:" exports.color_error = true
         /\ hex6 (fst (exports.color s env)) = false
     end.
Proof.
  intros env. unfold env.
  rewrite !color_value, toLowerCase_idem. cbn [fst snd].
  split; [reflexivity|]. split; [reflexivity|].
  unfold color_key, color_names. cbn [List.find fst snd option_map].
  repeat (destruct (String.eqb (toLowerCase s) _);
          [cbn [option_map snd]; split; [eexists; split; reflexivity | reflexivity]|]).
  cbn [option_map]. repeat split; reflexivity.
Qed.

(** ** Sentinel 2 indices *)

Example sentinel2_savi (image : ee) :
  added_band_names (exports.sentinel2Indices image (Some "SAVI")) = [Some "SAVI"].
Proof. reflexivity. Qed.

Example sentinel2_unknown (image : ee) :
  exports.sentinel2Indices image (Some "msavi") = VUndef.
Proof. reflexivity. Qed.

(** The [switch] on the lower-cased index: a supported name adds one
    band to the image, any other string gives [undefined]. *)
Lemma sentinel2Indices_switch (image : ee) (s : string) :
  if sentinel2_supported (toLowerCase s)
  then exists band, exports.sentinel2Indices image (Some s) = VEE (image |> addBands band)
  else exports.sentinel2Indices image (Some s) = VUndef.
Proof.
  unfold sentinel2_supported, sentinel2_index_names, exports.sentinel2Indices.
  cbn [existsb].
  repeat (destruct (String.eqb (toLowerCase s) _); [cbn [orb]; eexists; reflexivity|]).
  reflexivity.
Qed.

(** C9, on the code: [sentinel2Indices] matches its index argument
    without regard to case; an index that, lower-cased, is none of the
    23 supported names falls through the [switch] and the call returns
    [undefined], no band added.  Each of the 23 names adds the band
    [sentinel2_index_bands] lists for it.  With the index omitted the
    call adds, in one [addBands], the bands of 22 of the 23 names, each
    the very band the name adds alone: the band of [gemi] is not among
    them, so the image is not that of all the indices. *)
Theorem sentinel2Indices_case_insensitive (image : ee) (s : string) :
  exports.sentinel2Indices image (Some s)
    = exports.sentinel2Indices image (Some (toLowerCase s))
  /\ (if sentinel2_supported (toLowerCase s)
      then exists band, exports.sentinel2Indices image (Some s) = VEE (image |> addBands band)
      else exports.sentinel2Indices image (Some s) = VUndef
           /\ added_band_names (exports.sentinel2Indices image (Some s)) = [])
  /\ length sentinel2_index_names = 23%nat
  /\ map fst (sentinel2_index_bands image) = sentinel2_index_names
  /\ Forall (fun '(index, band) =>
               exports.sentinel2Indices image (Some index) = VEE (image |> addBands band))
       (sentinel2_index_bands image)
  /\ (exists bands, exports.sentinel2Indices image None = VEE (image |> addBandsList bands))
  /\ exports.sentinel2Indices image None
     = VEE (image |> addBandsList
              (map snd (List.filter (fun entry => negb (String.eqb (fst entry) "gemi"))
                          (sentinel2_index_bands image))))
  /\ added_band_names (exports.sentinel2Indices image None)
     = map Some ["NDVI"; "NDWI"; "NDBI"; "MNDWI"; "MNDVI"; "NGRDI"; "NDSI"; "RI";
                 "NDMI"; "GNDVI"; "BNDVI"; "NBR"; "PPR"; "NDRE"; "LCI"; "SAVI";
                 "GOSAVI"; "EVI"; "EVI2"; "RVI"; "logR"; "TVI"]
  /\ added_band_names (exports.sentinel2Indices image (Some "gemi")) = [Some "GEMI"]
  /\ added_band "GEMI" (exports.sentinel2Indices image None) = None.
Proof.
  split.
  { unfold exports.sentinel2Indices. now rewrite toLowerCase_idem. }
  split.
  { pose proof (sentinel2Indices_switch image s) as H.
    destruct (sentinel2_supported (toLowerCase s)); [exact H|].
    split; [exact H | now rewrite H]. }
  split; [reflexivity|].
  split; [reflexivity|].
  split; [repeat constructor|].
  split; [eexists; reflexivity|].
  repeat split.
Qed.

(** ** Brightness temperature, Landsat 8 *)

Example brightnessTempL8_K_literals :
  ee_strings (exports.brightnessTempL8_K (Handle "toa") (VBool false))
  = ["K2 / brightness_temp_log"; "K2_CONSTANT_BAND_10"; "K1 / B10 + 1";
     "K1_CONSTANT_BAND_10"; "TOA_Radiance"; "Brightness_Temperature"].
Proof. reflexivity. Qed.

(** C8: whatever is passed as [single] (true, false, anything else, or
    nothing), [brightnessTempL8_K] adds the same
    [Brightness_Temperature] band: its two branches are equal, built
    from the band-10 constants and the [TOA_Radiance] band only, the
    B11 constants read in one branch being used nowhere; the same holds
    of [brightnessTempL8_C], whose band is that of [brightnessTempL8_K]
    less 273.5 in both branches. *)
Theorem brightnessTempL8_branches_agree (image : ee) (single : val) :
  exports.brightnessTempL8_K_double image = exports.brightnessTempL8_K_single image
  /\ exports.brightnessTempL8_K image single = exports.brightnessTempL8_K image VUndef
  /\ exports.brightnessTempL8_C_double image = exports.brightnessTempL8_C_single image
  /\ exports.brightnessTempL8_C image single = exports.brightnessTempL8_C image VUndef
  /\ (exists band,
        exports.brightnessTempL8_K image single = image |> addBands band
        /\ band_name (VEE band) = Some "Brightness_Temperature"
        /\ exports.brightnessTempL8_C image single
           = image |> addBands (band |> subtract (VNum 273.5)))
  /\ (forall name : string,
        let literals :=
          (ee_strings (exports.brightnessTempL8_K (Handle name) single)
           ++ ee_strings (exports.brightnessTempL8_C (Handle name) single))%list in
        existsb (String.eqb "K1_CONSTANT_BAND_10") literals = true
        /\ existsb (String.eqb "K2_CONSTANT_BAND_10") literals = true
        /\ existsb (String.eqb "TOA_Radiance") literals = true
        /\ existsb (String.eqb "K1_CONSTANT_BAND_11") literals = false
        /\ existsb (String.eqb "K2_CONSTANT_BAND_11") literals = false).
Proof.
  split; [reflexivity|].
  split; [destruct single; reflexivity|].
  split; [reflexivity|].
  split; [destruct single; reflexivity|].
  split.
  - eexists. destruct single; (split; [reflexivity | split; reflexivity]).
  - intros name. destruct single; repeat split; reflexivity.
Qed.

(** ** Top-of-atmosphere conversions *)

Example toaRadiance_band_10 :
  added_band_names (VEE (exports.toaRadiance (Handle "img") 10)) = [Some "TOA_Radiance"].
Proof. reflexivity. Qed.

Example toaReflectance_band_10 :
  outer_call (exports.toaReflectance (Handle "img") 10)
  = Some (Handle "img" |> select "B10"
          |> expression "(Mp * image) + Ap"
               [("Mp", VEE (ee_Number (VEE (Handle "img" |> get "REFLECTANCE_MULT_BAND_10"))));
                ("Ap", VEE (ee_Number (VEE (Handle "img" |> get "REFLECTANCE_ADD_BAND_10"))));
                ("image", VEE (Handle "img" |> select "B10"))],
          "rename", [VStr "B10_TOA_Reflectance"]).
Proof. reflexivity. Qed.

(** [toaReflectance] does not hand back the input image with a band
    appended: on the image [img] and band 10 its result is the renamed
    band, not [img.addBands(...)]. *)
Lemma toaReflectance_not_appended :
  ~ ((exists b, exports.toaRadiance (Handle "img") 10 = Handle "img" |> addBands b)
     /\ (exists b, exports.toaReflectance (Handle "img") 10 = Handle "img" |> addBands b)).
Proof.
  intros [_ [b H]]. discriminate H.
Qed.

(** C7, amended: [toaRadiance] returns the input image with the new
    [TOA_Radiance] band appended by [addBands]; [toaReflectance]
    returns the new band alone, named after the band number, computed
    from the selected band of the input, and not the input image with a
    band appended. *)
Theorem toaRadiance_appends_toaReflectance_alone (image : ee) (band : Z) :
  (exists b, exports.toaRadiance image band = image |> addBands b
             /\ band_name (VEE b) = Some "TOA_Radiance"
             /\ exists vars, b = image |> select ("B" ++ toString band)
                                 |> expression "(Ml * band) + Al" vars
                                 |> rename "TOA_Radiance")
  /\ (exists vars, exports.toaReflectance image band
                   = image |> select ("B" ++ toString band)
                     |> expression "(Mp * image) + Ap" vars
                     |> rename ("B" ++ toString band ++ "_TOA_Reflectance"))
  /\ (forall dst src, exports.toaReflectance image band <> dst |> invoke "addBands" src).
Proof.
  split; [|split].
  - eexists. split; [reflexivity|]. split; [reflexivity|]. eexists. reflexivity.
  - eexists. reflexivity.
  - intros dst src H. discriminate H.
Qed.

(** ** Reducers *)


(** ** Landsat indices: one index against all indices *)

Example landsatIndices_lower_case_name (image : ee) :
  fst (exports.landsatIndices image "L5" (VStr "savi") loaded) = VUndef.
Proof. reflexivity. Qed.

(** C4, on the code: for Landsat 5, 7 and 8 the NDVI and NDBI bands of
    a single-index call and of the all-indices call come from the same
    pair of bands, and the NDWI bands do not: the single-index call
    takes (B3, B5) on Landsat 5 and 7 and (B4, B6) on Landsat 8, the
    all-indices call (B2, B5) and (B3, B6). *)
Theorem landsatIndices_band_pairs (image : ee) (env : Env) :
  let single sensor name :=
    band_pair (added_band name (fst (exports.landsatIndices image sensor (VStr name) env))) in
  let all sensor name :=
    band_pair (added_band name (fst (exports.landsatIndices image sensor VUndef env))) in
  (single "L5" "NDVI" = Some [VStr "B4"; VStr "B3"] /\ all "L5" "NDVI" = Some [VStr "B4"; VStr "B3"])
  /\ (single "L7" "NDVI" = Some [VStr "B4"; VStr "B3"] /\ all "L7" "NDVI" = Some [VStr "B4"; VStr "B3"])
  /\ (single "L8" "NDVI" = Some [VStr "B5"; VStr "B4"] /\ all "L8" "NDVI" = Some [VStr "B5"; VStr "B4"])
  /\ (single "L5" "NDBI" = Some [VStr "B5"; VStr "B4"] /\ all "L5" "NDBI" = Some [VStr "B5"; VStr "B4"])
  /\ (single "L7" "NDBI" = Some [VStr "B5"; VStr "B4"] /\ all "L7" "NDBI" = Some [VStr "B5"; VStr "B4"])
  /\ (single "L8" "NDBI" = Some [VStr "B6"; VStr "B5"] /\ all "L8" "NDBI" = Some [VStr "B6"; VStr "B5"])
  /\ (single "L5" "NDWI" = Some [VStr "B3"; VStr "B5"] /\ all "L5" "NDWI" = Some [VStr "B2"; VStr "B5"])
  /\ (single "L7" "NDWI" = Some [VStr "B3"; VStr "B5"] /\ all "L7" "NDWI" = Some [VStr "B2"; VStr "B5"])
  /\ (single "L8" "NDWI" = Some [VStr "B4"; VStr "B6"] /\ all "L8" "NDWI" = Some [VStr "B3"; VStr "B6"])
  /\ single "L5" "NDWI" <> all "L5" "NDWI"
  /\ single "L7" "NDWI" <> all "L7" "NDWI"
  /\ single "L8" "NDWI" <> all "L8" "NDWI".
Proof.
  cbv zeta. repeat split; try reflexivity; discriminate.
Qed.

(** ** The generalized eigenproblem and the MAD iteration *)

(** C2, on the code: [geneiv] inverts the Cholesky factor of [B],
    solves the symmetric eigenproblem and maps the eigenvectors back, as
    its comments say, but ends in [return (lambdas,eigenvecs)], a comma
    expression, and so returns the eigenvectors alone; the eigenvalues
    are dropped, and reading element 0 or 1 of the result, as [imad1]
    does, gives [undefined].  The pair of the comments has the
    eigenvalues at 0 and the eigenvectors at 1. *)
Theorem geneiv_returns_eigenvectors_only (C B : val) :
  let Li := ee_Array (VEE (ee_Array B |> invoke "matrixCholeskyDecomposition" [] |> get "L"))
            |> matrixInverse in
  let Xa := Li |> matrixMultiply (ee_Array C) |> matrixMultiply (Li |> matrixTranspose)
            |> invoke "eigen" [] in
  let lambdas := Xa |> invoke "slice" [VNum 1; VNum 0; VNum 1] |> matrixTranspose in
  let eigenvecs := Li |> matrixTranspose
                   |> matrixMultiply (Xa |> invoke "slice" [VNum 1; VNum 1] |> matrixTranspose) in
  geneiv_pair C B = VArr [VEE lambdas; VEE eigenvecs]
  /\ geneiv C B = VEE eigenvecs
  /\ geneiv C B <> geneiv_pair C B
  /\ index (geneiv C B) 0 = Normal VUndef
  /\ index (geneiv C B) 1 = Normal VUndef
  /\ index (geneiv_pair C B) 0 = Normal (VEE lambdas)
  /\ index (geneiv_pair C B) 1 = Normal (VEE eigenvecs).
Proof.
  cbv zeta. split; [reflexivity|].
  repeat split; try reflexivity; discriminate.
Qed.

(** With a solver that returns the pair, [imad1] completes and its
    [done] entry is the convergence test on the correlations: the
    square roots of the eigenvalues of the first eigenproblem, sorted,
    compared with the last entry of [allrhos]. *)
Lemma imad1_with_pair_done (current prev : val) :
  exists (dict c1 b1 lambdas keys : ee),
    imad1_with geneiv_pair current prev = Normal dict
    /\ index (geneiv_pair (VEE c1) (VEE b1)) 0 = Normal (VEE lambdas)
    /\ dictionary_entry "done" dict
       = Some (VEE (converged
                      (lambdas |> sqrt |> invoke "project" [VEE (ee_List (VArr [VNum 1]))]
                       |> invoke "sort" [VEE keys])
                      (ee_Array (VEE (ee_List (VEE (ee_Dictionary prev |> get "allrhos"))
                                      |> invoke "get" [VNum (-1)]))))).
Proof.
  do 5 eexists. split; [reflexivity|]. split; reflexivity.
Qed.

(** With a solver that returns the pair, a step of the iteration is
    [ee.Algorithms.If(done, prev, next)]: the accumulator itself once
    [done] holds. *)
Lemma imad_with_pair_step (current prev : val) :
  exists next : ee,
    imad_with geneiv_pair current prev
    = Normal (Static "ee.Algorithms.If"
                [VEE (ee_Number (VEE (ee_Dictionary prev |> get "done"))); prev; VEE next]).
Proof.
  eexists. reflexivity.
Qed.

(** C3, on the code: [imad1] reads [geneiv(c1,b1)[0]], which is
    [undefined], and calls [sqrt] on it; the call throws before the
    convergence test is reached.  [imad] evaluates [imad1(current,prev)]
    as an argument of [ee.Algorithms.If], so it throws for every
    accumulator, one whose [done] entry is true included. *)
Theorem imad_throws (current prev : val) :
  imad1 current prev = Throw TypeError
  /\ imad current prev = Throw TypeError
  /\ imad current (VEE (ee_Dictionary (VObj [("done", VBool true)]))) = Throw TypeError.
Proof.
  repeat split.
Qed.

(** ** What the exported functions return *)

Ltac unfold_exports :=
  unfold exports.kmeans, exports.simpleNDVIChangeDetection,
    exports.simpleNDWIChangeDetection, exports.simpleNDBIChangeDetection,
    exports.color, exports.plotRGB, exports.plotNDVI, exports.plotNDWI,
    exports.plotClass, exports.landsatIndices, exports.loadImg,
    exports.toaReflectanceL8, exports.loadL5ByPathRow, exports.loadL7ByPathRow,
    exports.loadL8ByPathRow, exports.s2Mosaic, exports.landsat5Mosaic,
    exports.landsat7Mosaic, exports.landsat8Mosaic, exports.modisNdviMosaic,
    exports.exportImg.

(** Case analysis on the string comparisons of the goal, keeping the
    equations: a comparison that holds replaces the variable by the
    literal. *)
Ltac split_eqb :=
  repeat match goal with
         | |- context [String.eqb ?a ?b] =>
             destruct (String.eqb_spec a b); [try subst a|]; cbn
         end.

(** Case analysis on the conditions of the goal, for goals that hold on
    every branch. *)
Ltac split_if :=
  repeat match goal with
         | |- context [if ?c then _ else _] => destruct c; cbn
         end.

Lemma is_handle_kind (v : val) :
  is_handle v = match kind_of v with KHandle => true | _ => false end.
Proof. destruct v; reflexivity. Qed.

Lemma kmeans_kind image roi numClusters scale numPixels s :
  kind_of (fst (exports.kmeans image roi numClusters scale numPixels s)) = KHandle.
Proof. unfold_exports. destruct roi; reflexivity. Qed.

Lemma simpleNDVIChangeDetection_kind img1 img2 sensor threshold s :
  kind_of (fst (exports.simpleNDVIChangeDetection img1 img2 sensor threshold s))
  = if landsat_or_s2 sensor then KHandle else KUndefined.
Proof. unfold_exports. unfold landsat_or_s2. cbn. split_eqb; reflexivity. Qed.

Lemma simpleNDWIChangeDetection_kind img1 img2 sensor threshold s :
  kind_of (fst (exports.simpleNDWIChangeDetection img1 img2 sensor threshold s))
  = if landsat_or_s2 sensor then KHandle else KUndefined.
Proof. unfold_exports. unfold landsat_or_s2. cbn. split_eqb; reflexivity. Qed.

Lemma simpleNDBIChangeDetection_kind img1 img2 sensor threshold s :
  kind_of (fst (exports.simpleNDBIChangeDetection img1 img2 sensor threshold s))
  = if landsat_or_s2 sensor then KHandle else KUndefined.
Proof. unfold_exports. unfold landsat_or_s2. cbn. split_eqb; reflexivity. Qed.

Lemma color_kind _color out layers tasks :
  kind_of (fst (exports.color _color (mkEnv COLOR out layers tasks))) = KString.
Proof.
  rewrite color_value. cbn [fst].
  unfold color_key, color_names. cbn [List.find fst snd option_map].
  repeat (destruct (String.eqb (toLowerCase _color) _); [reflexivity|]).
  reflexivity.
Qed.

Lemma plotClass_undefined image numClasses title s :
  fst (exports.plotClass image numClasses title s) = VUndef.
Proof. unfold_exports. cbn. split_if; reflexivity. Qed.

Lemma landsatIndices_kind image sensor index s :
  kind_of (fst (exports.landsatIndices image sensor index s))
  = answer (call_landsatIndices image sensor index).
Proof.
  unfold_exports. unfold answer, returns_handle, landsat_or_s2, landsat.
  destruct index; cbn; try reflexivity; split_eqb; try reflexivity; congruence.
Qed.

Lemma sentinel2Indices_kind image index :
  kind_of (exports.sentinel2Indices image index)
  = answer (call_sentinel2Indices image index).
Proof.
  destruct index as [index|]; [|reflexivity]. cbn [answer returns_handle].
  pose proof (sentinel2Indices_switch image index) as H.
  destruct (sentinel2_supported (toLowerCase index)).
  - destruct H as [band ->]. reflexivity.
  - now rewrite H.
Qed.

Lemma loadImg_kind collection year roi cloudFree s :
  kind_of (fst (exports.loadImg collection year roi cloudFree s)) = KHandle.
Proof. unfold_exports. cbn. split_if; reflexivity. Qed.

Lemma toaReflectanceL8_kind image band _solarAngle s :
  kind_of (fst (exports.toaReflectanceL8 image band _solarAngle s)) = KHandle.
Proof.
  unfold_exports. destruct _solarAngle; cbn; try reflexivity.
  split_eqb; try reflexivity; congruence.
Qed.

Lemma loadL5ByPathRow_kind collection path row startYear endYear s :
  kind_of (fst (exports.loadL5ByPathRow collection path row startYear endYear s))
  = if path_row_collection collection then KHandle else KUndefined.
Proof.
  unfold_exports. destruct collection as [c|]; [|reflexivity]. cbn.
  generalize (toLowerCase c). intros lc. split_eqb; reflexivity.
Qed.

Lemma loadL7ByPathRow_kind collection path row startYear endYear s :
  kind_of (fst (exports.loadL7ByPathRow collection path row startYear endYear s))
  = if path_row_collection collection then KHandle else KUndefined.
Proof.
  unfold_exports. destruct collection as [c|]; [|reflexivity]. cbn.
  generalize (toLowerCase c). intros lc. split_eqb; reflexivity.
Qed.

Lemma loadL8ByPathRow_kind collection path row startYear endYear s :
  kind_of (fst (exports.loadL8ByPathRow collection path row startYear endYear s))
  = if path_row_collection collection then KHandle else KUndefined.
Proof.
  unfold_exports. destruct collection as [c|]; [|reflexivity]. cbn.
  generalize (toLowerCase c). intros lc. split_eqb; reflexivity.
Qed.

Lemma mosaics_kind startDate endDate roi showMosaic s :
  kind_of (fst (exports.s2Mosaic startDate endDate roi showMosaic s)) = KHandle
  /\ kind_of (fst (exports.landsat5Mosaic startDate endDate roi showMosaic s)) = KHandle
  /\ kind_of (fst (exports.landsat7Mosaic startDate endDate roi showMosaic s)) = KHandle
  /\ kind_of (fst (exports.landsat8Mosaic startDate endDate roi showMosaic s)) = KHandle
  /\ kind_of (fst (exports.modisNdviMosaic startDate endDate roi showMosaic s)) = KHandle.
Proof.
  unfold_exports. repeat split; cbn; split_if; reflexivity.
Qed.

(** The kind of value every request is answered with, once the module
    is loaded. *)
Lemma run_kind (r : request) (out : list val) (layers : list (val * val * val))
    (tasks : list val) :
  kind_of (fst (run r (mkEnv COLOR out layers tasks))) = answer r.
Proof.
  destruct r; cbn [run answer returns_handle];
    lazymatch goal with
    | |- context [exports.kmeans] => apply kmeans_kind
    | |- context [exports.simpleNDVIChangeDetection] => apply simpleNDVIChangeDetection_kind
    | |- context [exports.simpleNDWIChangeDetection] => apply simpleNDWIChangeDetection_kind
    | |- context [exports.simpleNDBIChangeDetection] => apply simpleNDBIChangeDetection_kind
    | |- context [exports.color] => apply color_kind
    | |- context [exports.plotClass] => rewrite plotClass_undefined; reflexivity
    | |- context [exports.landsatIndices] => apply landsatIndices_kind
    | |- context [exports.sentinel2Indices] => apply sentinel2Indices_kind
    | |- context [exports.loadImg] => apply loadImg_kind
    | |- context [exports.toaReflectanceL8] => apply toaReflectanceL8_kind
    | |- context [exports.loadL5ByPathRow] => apply loadL5ByPathRow_kind
    | |- context [exports.loadL7ByPathRow] => apply loadL7ByPathRow_kind
    | |- context [exports.loadL8ByPathRow] => apply loadL8ByPathRow_kind
    | |- context [exports.s2Mosaic] => apply mosaics_kind
    | |- context [exports.landsat5Mosaic] => apply mosaics_kind
    | |- context [exports.landsat7Mosaic] => apply mosaics_kind
    | |- context [exports.landsat8Mosaic] => apply mosaics_kind
    | |- context [exports.modisNdviMosaic] => apply mosaics_kind
    | |- _ => reflexivity
    end.
Qed.

Lemma answer_handle (r : request) :
  match answer r with KHandle => true | _ => false end = returns_handle r.
Proof.
  destruct r; cbn [answer]; try reflexivity; destruct (returns_handle _); reflexivity.
Qed.

(** Three calls that return no handle: a change detection on an
    unknown sensor, [plotClass], and [exportImg] all return
    [undefined]. *)
Lemma handle_not_always_returned :
  fst (run (call_simpleNDVIChangeDetection (Handle "a") (Handle "b") "L9" (VNum 0.5)) loaded)
    = VUndef
  /\ fst (run (call_plotClass (Handle "classified") (VNum 4) (VStr "class_final")) loaded)
    = VUndef
  /\ fst (run (call_exportImg (Handle "img") (VStr "output_img") VUndef VUndef) loaded)
    = VUndef
  /\ ~ (forall r s, is_handle (fst (run r s)) = true).
Proof.
  split; [reflexivity|]. split; [reflexivity|]. split; [reflexivity|].
  intros H.
  specialize (H (call_exportImg (Handle "img") (VStr "output_img") VUndef VUndef) loaded).
  discriminate H.
Qed.

(** C1, amended: what a call of an exported function returns is, by
    kind, decided by its arguments as [answer] lists, for every call
    that is [settled].  The change detections return a handle for the
    sensors L5, L7, L8 and S2 and [undefined] for any other;
    [landsatIndices], with the index omitted or one of its seven names,
    a handle for those sensors (for L5, L7, L8 when the index is NRVI)
    and [undefined] for any other; [sentinel2Indices] a handle when the
    index is omitted or a string that is one of its 23 names in any
    case, and [undefined] for any other string; the [loadL*ByPathRow]
    functions a handle when the collection is omitted or one of raw,
    toa, sr in any case, and [undefined] for any other string; the
    plotting functions and [exportImg] [undefined]; [color] a string
    and [pca] a JavaScript array; every other exported function a
    handle. *)
Theorem exported_call_returns_handle (r : request) (out : list val)
    (layers : list (val * val * val)) (tasks : list val) :
  settled r = true ->
  let result := fst (run r (mkEnv COLOR out layers tasks)) in
  kind_of result = answer r
  /\ is_handle result = returns_handle r.
Proof.
  intros _. cbv zeta. split; [apply run_kind|].
  rewrite is_handle_kind, run_kind. apply answer_handle.
Qed.

Lemma exported_call_returns_handle_witness :
  settled (call_landsatIndices (Handle "img") "L9" (VStr "SAVI")) = true
  /\ kind_of (fst (run (call_landsatIndices (Handle "img") "L9" (VStr "SAVI"))
                      (mkEnv COLOR [] [] [])))
     = answer (call_landsatIndices (Handle "img") "L9" (VStr "SAVI"))
  /\ is_handle (fst (run (call_landsatIndices (Handle "img") "L9" (VStr "SAVI"))
                       (mkEnv COLOR [] [] [])))
     = returns_handle (call_landsatIndices (Handle "img") "L9" (VStr "SAVI")).
Proof.
  split; [reflexivity|].
  apply (exported_call_returns_handle
           (call_landsatIndices (Handle "img") "L9" (VStr "SAVI")) [] [] []).
  reflexivity.
Defined.

(** ** The environment between calls *)

Create HintDb stateless.

Lemma stateless_mret {A} (a : A) : stateless (mret a).
Proof. split; intros s; reflexivity. Qed.

Lemma stateless_print (v : val) : stateless (print v).
Proof. split; intros s; reflexivity. Qed.

Lemma stateless_Map_addLayer (obj vis name : val) : stateless (Map_addLayer obj vis name).
Proof. split; intros s; reflexivity. Qed.

Lemma stateless_Export_image_toDrive (params : val) : stateless (Export_image_toDrive params).
Proof. split; intros s; reflexivity. Qed.

Lemma stateless_COLOR_get (key : string) : stateless (COLOR_get key).
Proof.
  split; intros s; [reflexivity|].
  intros s' H. unfold COLOR_get. cbn [fst]. now rewrite H.
Qed.

Lemma stateless_mbind {A B} (m : M A) (k : A -> M B) :
  stateless m -> (forall a, stateless (k a)) -> stateless (m ≫= k).
Proof.
  intros [Hp Hv] Hk. split.
  - intros s. unfold mbind, M_bind. specialize (Hp s).
    destruct (m s) as [a s1]. cbn [snd] in Hp.
    rewrite <- Hp. apply (Hk a).
  - intros s s' E. unfold mbind, M_bind.
    pose proof (Hp s) as P. pose proof (Hp s') as P'. pose proof (Hv s s' E) as V.
    destruct (m s) as [a s1], (m s') as [a' s1']. cbn [fst snd] in *. subst a'.
    apply (Hk a). congruence.
Qed.

#[local] Hint Resolve stateless_mret stateless_print stateless_Map_addLayer
  stateless_Export_image_toDrive stateless_COLOR_get : stateless.

(** The structure of a computation: sequencing, branching and the
    binding of a pair; the leaves are closed with the hints. *)
Ltac stateless_steps :=
  repeat first
    [ solve [auto with stateless]
    | apply stateless_mbind; [|intros]
    | match goal with
      | |- stateless (if ?c then _ else _) => destruct c
      | |- stateless (match ?x with _ => _ end) => destruct x
      | |- stateless (let '(_, _) := ?x in _) => destruct x
      end
    | progress cbv beta zeta
    | progress cbn [mapM] ].

Lemma run_stateless (r : request) : stateless (run r).
Proof.
  destruct r; cbn [run]; unfold_exports; stateless_steps.
Qed.

(** The [COLOR] object after a session is the one before it. *)
Lemma session_preserves_COLOR (rs : list request) (s : Env) :
  env_COLOR (session rs s) = env_COLOR s.
Proof.
  revert s. induction rs as [|r rs IH]; intros s; cbn [session]; [reflexivity|].
  rewrite IH. apply run_stateless.
Qed.

(** The value of a call is the same in two environments that differ in
    the console, the map layers and the export queue. *)
Lemma run_value_from_COLOR (r : request) (table : gmap string string)
    (out out' : list val) (layers layers' : list (val * val * val))
    (tasks tasks' : list val) :
  fst (run r (mkEnv table out layers tasks)) = fst (run r (mkEnv table out' layers' tasks')).
Proof. apply run_stateless. reflexivity. Qed.

Example color_after_plots :
  fst (run (call_color "urban")
         (session [call_plotClass (Handle "c") (VNum 2) VUndef;
                   call_exportImg (Handle "c") (VStr "out") VUndef VUndef] loaded))
  = VStr "ff0000".
Proof. reflexivity. Qed.

(** Whatever calls of exported functions a script has made before, a
    call with given arguments returns the same value, and the [COLOR]
    object is the one the module was loaded with, before the call and
    after it. *)
Lemma session_history_independent (r : request) (before before' : list request) :
  fst (run r (session before loaded)) = fst (run r (session before' loaded))
  /\ env_COLOR (session before loaded) = COLOR
  /\ env_COLOR (snd (run r (session before loaded))) = COLOR.
Proof.
  pose proof (session_preserves_COLOR before loaded) as Hb.
  pose proof (session_preserves_COLOR before' loaded) as Hb'.
  split; [|split].
  - apply run_stateless. now rewrite Hb, Hb'.
  - exact Hb.
  - destruct (run_stateless r) as [Hp _]. now rewrite Hp.
Qed.

(** * Further properties of the code *)

(** Running a computation of the environment monad. *)
Ltac run_M :=
  unfold mbind, mret, M_bind, M_ret, print, Map_addLayer, Export_image_toDrive, COLOR_get;
  cbn.

(** ** Loading collections and images *)

(** X1: The three path/row loaders are one function: for Landsat 7 and
    Landsat 8 the call returns, prints and filters exactly what the
    Landsat 5 loader does, and the collection it filters is always one
    of the three Landsat 5 collections. *)
Theorem loadByPathRow_all_Landsat5 (collection : option string)
    (path row startYear endYear : val) (s : Env) :
  exports.loadL7ByPathRow collection path row startYear endYear s
    = exports.loadL5ByPathRow collection path row startYear endYear s
  /\ exports.loadL8ByPathRow collection path row startYear endYear s
    = exports.loadL5ByPathRow collection path row startYear endYear s
  /\ match fst (exports.loadL8ByPathRow collection path row startYear endYear s) with
     | VEE e => collection_id e = Some (VStr "LANDSAT/LT5_L1T")
                \/ collection_id e = Some (VStr "LANDSAT/LT5_L1T_TOA_FMASK")
                \/ collection_id e = Some (VStr "LANDSAT/LT05/C01/T1_SR")
     | v => v = VUndef
            /\ console (snd (exports.loadL8ByPathRow collection path row startYear endYear s))
               = (console s ++ [VStr collection_type_message])%list
     end.
Proof.
  split; [reflexivity|]. split; [reflexivity|].
  unfold exports.loadL8ByPathRow.
  destruct collection as [c|]; cbn; [|left; reflexivity].
  generalize (toLowerCase c). intros lc.
  destruct (String.eqb lc "raw"); [left; reflexivity|].
  destruct (String.eqb lc "toa"); [right; left; reflexivity|].
  destruct (String.eqb lc "sr"); [right; right; reflexivity|].
  split; reflexivity.
Qed.

(** X2: For a year from 1985 on, [loadImg] never takes the cloud-masking
    branch: whatever is passed as [cloudFree], it returns the first
    image of the filtered, sorted collection, with the same effects. *)
Theorem loadImg_cloudFree_ignored (collection : option string) (year : Z)
    (roi cloudFree cloudFree' : val) (s : Env) :
  (1985 <= year)%Z ->
  exports.loadImg collection (Some year) roi cloudFree s
    = exports.loadImg collection (Some year) roi cloudFree' s
  /\ (exists e, fst (exports.loadImg collection (Some year) roi cloudFree s)
                = VEE (ee_Image (VEE (e |> invoke "first" []))))
  /\ exports.loadImg collection None roi cloudFree s
     = exports.loadImg collection (Some 2015%Z) roi cloudFree s.
Proof.
  intros Hy. unfold exports.loadImg.
  assert (Hyear : (2013 <=? year)%Z = true
                  \/ ((2013 <=? year)%Z = false
                      /\ ((year <? 2013)%Z && (1985 <=? year)%Z) = true)).
  { destruct (Z.leb_spec 2013 year); [left; reflexivity|right; split; [reflexivity|]].
    apply andb_true_intro. split; [apply Z.ltb_lt | apply Z.leb_le]; lia. }
  destruct collection as [c|]; cbn;
    destruct Hyear as [-> | [-> ->]];
    try (destruct (String.eqb_spec c "RAW"); [|
         destruct (String.eqb_spec c "TOA"); [|
         destruct (String.eqb_spec c "SR"); [|]]]);
    unfold mbind, mret, M_bind, M_ret, print, Map_addLayer; cbn;
    try match goal with
        | H : c <> "TOA" |- _ => rewrite !(proj2 (String.eqb_neq _ _) H)
        end;
    rewrite ?andb_false_r;
    (split; [reflexivity | split; [eexists; reflexivity | reflexivity]]).
Qed.

Lemma loadImg_cloudFree_ignored_witness :
  (1985 <= 2001)%Z
  /\ exports.loadImg (Some "TOA") (Some 2001%Z) VUndef (VBool true) loaded
     = exports.loadImg (Some "TOA") (Some 2001%Z) VUndef (VBool false) loaded
  /\ (exists e, fst (exports.loadImg (Some "TOA") (Some 2001%Z) VUndef (VBool true) loaded)
                = VEE (ee_Image (VEE (e |> invoke "first" []))))
  /\ exports.loadImg (Some "TOA") None VUndef (VBool true) loaded
     = exports.loadImg (Some "TOA") (Some 2015%Z) VUndef (VBool true) loaded.
Proof.
  split; [lia|].
  apply (loadImg_cloudFree_ignored (Some "TOA") 2001 VUndef (VBool true) (VBool false) loaded).
  lia.
Defined.

(** X4: [toaReflectanceL8] has two solar-angle modes and falls back on the
    second.  With the mode ['SE'] it returns the band
    [TOA_Reflectance_SE], computed with the sun elevation, and prints
    nothing.  With any other mode, or none, it returns what it returns
    for ['SZ'], the band [TOA_Reflectance_SZ] computed with the solar
    zenith.  It prints its three messages exactly when a mode other
    than ['SZ'] and ['SE'] was passed, and nothing when the mode is
    omitted.  In no case does it add a layer or start an export. *)
Theorem toaReflectanceL8_defaults_to_zenith (image : ee) (band : Z) (mode : val) (s : Env) :
  let elevation := strict_eq_str mode "SE" in
  let '(result, s') := exports.toaReflectanceL8 image band mode s in
  result = fst (exports.toaReflectanceL8 image band
                  (VStr (if elevation then "SE" else "SZ")) s)
  /\ band_name result
     = Some (if elevation then "TOA_Reflectance_SE" else "TOA_Reflectance_SZ")
  /\ (exists toa, result = VEE ((if elevation then solarAngleElevation
                                  else solarAngleZenith) image toa))
  /\ map_layers s' = map_layers s
  /\ export_tasks s' = export_tasks s
  /\ console s' =
     (console s ++
      if defined mode && negb (strict_eq_str mode "SZ") && negb elevation then
        [VStr "Error: You need to choose one of two modes:";
         VStr "Error: 'SE' for the local sun elevation angle or 'SZ' for the Local solar zenith angle.";
         VStr "Warning: 'SZ' will be set as default mode."]
      else [])%list.
Proof.
  cbv zeta. unfold exports.toaReflectanceL8.
  destruct mode as [| | | |m| | | |]; cbn; run_M;
    try (rewrite <- ?app_assoc, ?app_nil_r; repeat split;
         solve [reflexivity | eexists; reflexivity]).
  destruct (String.eqb_spec m "SE") as [->|Hse]; cbn.
  - rewrite app_nil_r. repeat split; solve [reflexivity | eexists; reflexivity].
  - destruct (String.eqb_spec m "SZ") as [->|Hsz]; cbn.
    + rewrite app_nil_r. repeat split; solve [reflexivity | eexists; reflexivity].
    + rewrite <- !app_assoc. repeat split; solve [reflexivity | eexists; reflexivity].
Qed.

(** ** Plotting *)

Lemma Qeq_bool_inject_Z (n k : Z) : Qeq_bool (inject_Z n) (Qmake k 1) = (n =? k)%Z.
Proof.
  unfold Qeq_bool, inject_Z. cbn. now rewrite !Z.mul_1_r.
Qed.

(** X5: [plotClass] on a whole number of classes: from 3 to 5 it adds one
    layer over [0 .. numClasses - 1] whose palette has one six-digit
    colour per class; for 2 classes the second palette entry is
    [undefined], the [COLOR] object having no entry [NULO]; for any
    other number it adds no layer and prints its error message.  The
    title defaults to [class_final]. *)
Theorem plotClass_layer (image : ee) (n : Z) (title : val) (out : list val)
    (layers : list (val * val * val)) (tasks : list val) :
  let s' := snd (exports.plotClass image (VNum (inject_Z n)) title
                   (mkEnv COLOR out layers tasks)) in
  let layer palette :=
    (VEE image,
     VObj [("min", VNum 0); ("max", VNum (inject_Z n - 1)); ("palette", VArr palette)],
     default title (VStr "class_final")) in
  export_tasks s' = tasks
  /\ if ((3 <=? n) && (n <=? 5))%Z then
       exists palette,
         map_layers s' = (layers ++ [layer palette])%list
         /\ length palette = Z.to_nat n
         /\ forallb hex6 palette = true
         /\ console s' = out
     else if (n =? 2)%Z then
       map_layers s' = (layers ++ [layer [VStr "000000"; VUndef]])%list
       /\ console s' = out
     else
       map_layers s' = layers
       /\ console s' =
          (out ++ [VStr "Error: Wrong number of classes. plotClass supports a number of classes from 2 to 5 only."])%list.
Proof.
  cbv zeta. unfold exports.plotClass, strict_eq_num. rewrite !(Qeq_bool_inject_Z n).
  destruct (Z.eqb_spec n 2) as [->|H2]; [split; [reflexivity|]; split; reflexivity|].
  destruct (Z.eqb_spec n 3) as [->|H3];
    [split; [reflexivity|]; eexists; repeat split; reflexivity|].
  destruct (Z.eqb_spec n 4) as [->|H4];
    [split; [reflexivity|]; eexists; repeat split; reflexivity|].
  destruct (Z.eqb_spec n 5) as [->|H5];
    [split; [reflexivity|]; eexists; repeat split; reflexivity|].
  replace ((3 <=? n) && (n <=? 5))%Z with false
    by (symmetry; apply andb_false_iff; destruct (Z.leb_spec 3 n); [right; apply Z.leb_gt; lia | left; reflexivity]).
  split; [reflexivity|]. split; reflexivity.
Qed.

(** ** Change detection *)

(** X6: The three change detections treat their two images alike and show
    what they return.  For a sensor among L5, L7, L8 and S2 the result
    is [mask(img1).add(mask(img2))] for one and the same masking of both
    images, that very object is the one layer added to the map, with
    the palette black, red, green over [0 .. 2], and nothing is printed;
    for any other sensor nothing is added to the map, one error message
    is printed and the result is [undefined]. *)
Theorem changeDetection_effects (sensor : string) (threshold : val) :
  Forall (fun '(detect, title) =>
    exists mask : ee -> ee,
    forall (img1 img2 : ee) (out : list val) (layers : list (val * val * val))
           (tasks : list val),
      let '(result, s') := detect img1 img2 sensor threshold (mkEnv COLOR out layers tasks) in
      export_tasks s' = tasks
      /\ if landsat_or_s2 sensor then
           result = VEE (mask img1 |> invoke "add" [VEE (mask img2)])
           /\ map_layers s' =
              (layers ++ [(result,
                           VObj [("min", VNum 0); ("max", VNum 2);
                                 ("palette", VArr [VStr "000000"; VStr "ff0000"; VStr "99cc00"])],
                           VStr title)])%list
           /\ console s' = out
         else
           result = VUndef
           /\ map_layers s' = layers
           /\ console s' =
              (out ++ [VStr "Error: Wrong sensor. Choose between L5, L7, L8 or S2"])%list)
    [(exports.simpleNDVIChangeDetection, "ndvi_cd");
     (exports.simpleNDWIChangeDetection, "ndwi_cd");
     (exports.simpleNDBIChangeDetection, "ndbi_cd")].
Proof.
  unfold landsat_or_s2.
  repeat constructor;
    unfold exports.simpleNDVIChangeDetection, exports.simpleNDWIChangeDetection,
      exports.simpleNDBIChangeDetection;
    (destruct (String.eqb_spec sensor "L8") as [->|H8];
     [ eexists (fun img => _); intros; cbn; repeat split; reflexivity |]);
    (destruct (String.eqb_spec sensor "L5") as [->|H5];
     [ eexists (fun img => _); intros; cbn; repeat split; reflexivity |]);
    (destruct (String.eqb_spec sensor "L7") as [->|H7];
     [ eexists (fun img => _); intros; cbn; repeat split; reflexivity |]);
    (destruct (String.eqb_spec sensor "S2") as [->|H2];
     [ eexists (fun img => _); intros; cbn; repeat split; reflexivity |]);
    exists (fun img => img); intros; cbn; repeat split; reflexivity.
Qed.

(** ** Index functions *)

(** X7: [landsatIndices] compares the index name as it is written: a name
    that is not one of the seven upper-case names, the lower-case
    [savi] of the usage note included, gives [undefined] for every
    sensor, and nothing is printed or shown. *)
Theorem landsatIndices_unknown_index_silent (image : ee) (sensor index : string) (s : Env) :
  existsb (String.eqb index) landsat_index_names = false ->
  exports.landsatIndices image sensor (VStr index) s = (VUndef, s).
Proof.
  unfold landsat_index_names. cbn [existsb]. intros H.
  repeat (apply orb_false_elim in H; destruct H as [? H]).
  unfold exports.landsatIndices. cbn.
  repeat match goal with E : String.eqb index _ = false |- _ => rewrite E; clear E end.
  reflexivity.
Qed.

Lemma landsatIndices_unknown_index_silent_witness :
  existsb (String.eqb "savi") landsat_index_names = false
  /\ exports.landsatIndices (Handle "img") "L5" (VStr "savi") loaded = (VUndef, loaded).
Proof.
  split; [reflexivity|].
  apply (landsatIndices_unknown_index_silent (Handle "img") "L5" "savi" loaded).
  reflexivity.
Defined.

(** X8: A known index on an unknown sensor is reported: the call prints
    [Error: Wrong sensor!] and returns [undefined]; with the index
    omitted it prints two lines.  NRVI is not available for Sentinel 2:
    [S2] is an unknown sensor for it, and the all-indices call on [S2]
    adds no NRVI band. *)
Theorem landsatIndices_wrong_sensor (image : ee) (sensor index : string) (s : Env) :
  landsat_or_s2 sensor = false ->
  existsb (String.eqb index) landsat_index_names = true ->
  let wrong := mkEnv (env_COLOR s) (console s ++ [VStr "Error: Wrong sensor!"])
                     (map_layers s) (export_tasks s) in
  exports.landsatIndices image sensor (VStr index) s = (VUndef, wrong)
  /\ exports.landsatIndices image "S2" (VStr "NRVI") s = (VUndef, wrong)
  /\ added_band "NRVI" (fst (exports.landsatIndices image "S2" VUndef s)) = None
  /\ exports.landsatIndices image sensor VUndef s
     = (VUndef, mkEnv (env_COLOR s)
                  (console s ++ [VStr "Error: Wrong sensor input!";
                                 VStr "Choose 'L5' to process Landsat 5 images, 'L8' for Landsat 8 and S2 for Sentinel 2"])
                  (map_layers s) (export_tasks s)).
Proof.
  unfold landsat_or_s2, landsat_index_names. cbn [existsb]. intros Hs Hi.
  repeat (apply orb_false_elim in Hs; destruct Hs as [Hs ?]).
  cbv zeta. split; [|split; [reflexivity|split; [reflexivity|]]].
  - unfold exports.landsatIndices. cbn.
    repeat match goal with E : String.eqb sensor _ = false |- _ => rewrite E end. cbn.
    repeat (destruct (String.eqb index _); [reflexivity|]). discriminate Hi.
  - unfold exports.landsatIndices. cbn.
    repeat match goal with E : String.eqb sensor _ = false |- _ => rewrite E end. cbn.
    run_M. now rewrite <- app_assoc.
Qed.

Lemma landsatIndices_wrong_sensor_witness :
  landsat_or_s2 "L9" = false
  /\ existsb (String.eqb "EVI") landsat_index_names = true
  /\ let wrong := mkEnv (env_COLOR loaded) (console loaded ++ [VStr "Error: Wrong sensor!"])
                        (map_layers loaded) (export_tasks loaded) in
     exports.landsatIndices (Handle "img") "L9" (VStr "EVI") loaded = (VUndef, wrong)
     /\ exports.landsatIndices (Handle "img") "S2" (VStr "NRVI") loaded = (VUndef, wrong)
     /\ added_band "NRVI" (fst (exports.landsatIndices (Handle "img") "S2" VUndef loaded)) = None
     /\ exports.landsatIndices (Handle "img") "L9" VUndef loaded
        = (VUndef, mkEnv (env_COLOR loaded)
                     (console loaded ++ [VStr "Error: Wrong sensor input!";
                                    VStr "Choose 'L5' to process Landsat 5 images, 'L8' for Landsat 8 and S2 for Sentinel 2"])
                     (map_layers loaded) (export_tasks loaded)).
Proof.
  split; [reflexivity|]. split; [reflexivity|].
  apply (landsatIndices_wrong_sensor (Handle "img") "L9" "EVI" loaded); reflexivity.
Defined.

(** X9: For every Sentinel 2 index but GEMI, the band a single-index call
    adds is the band of that name the all-indices call adds; the
    all-indices call adds no GEMI band. *)
Theorem sentinel2Indices_single_agrees_with_all (image : ee) :
  Forall (fun '(index, band) =>
            is_Some (added_band band (exports.sentinel2Indices image None))
            /\ added_band band (exports.sentinel2Indices image (Some index))
               = added_band band (exports.sentinel2Indices image None))
    [("ndvi", "NDVI"); ("ndwi", "NDWI"); ("ndbi", "NDBI"); ("mndwi", "MNDWI");
     ("mndvi", "MNDVI"); ("ngrdi", "NGRDI"); ("ndsi", "NDSI"); ("ri", "RI");
     ("ndmi", "NDMI"); ("gndvi", "GNDVI"); ("bndvi", "BNDVI"); ("nbr", "NBR");
     ("ppr", "PPR"); ("ndre", "NDRE"); ("lci", "LCI"); ("savi", "SAVI");
     ("gosavi", "GOSAVI"); ("evi", "EVI"); ("evi2", "EVI2"); ("rvi", "RVI");
     ("logr", "logR"); ("tvi", "TVI")]
  /\ is_Some (added_band "GEMI" (exports.sentinel2Indices image (Some "gemi")))
  /\ added_band "GEMI" (exports.sentinel2Indices image None) = None.
Proof.
  split; [|split; [eexists; reflexivity | reflexivity]].
  repeat constructor; eexists; reflexivity.
Qed.

(** X10: Four of the Sentinel 2 indices are one computation under four
    names: MNDVI, NDMI, NBR and PPR are all the normalized difference of
    B9 and B12. *)
Theorem sentinel2Indices_B9_B12_four_times (image : ee) :
  Forall (fun '(index, band) =>
            band_pair (added_band band (exports.sentinel2Indices image (Some index)))
            = Some [VStr "B9"; VStr "B12"]
            /\ band_pair (added_band band (exports.sentinel2Indices image None))
               = Some [VStr "B9"; VStr "B12"])
    [("mndvi", "MNDVI"); ("ndmi", "NDMI"); ("nbr", "NBR"); ("ppr", "PPR")].
Proof.
  repeat constructor.
Qed.

(** X11: For the indices given by an expression (NRVI, EVI, SAVI, GOSAVI)
    the single-index call of [landsatIndices] adds, for every sensor,
    the band of that name the all-indices call adds. *)
Theorem landsatIndices_expressions_agree (image : ee) (s : Env) :
  Forall (fun '(sensor, index) =>
            is_Some (added_band index (fst (exports.landsatIndices image sensor VUndef s)))
            /\ added_band index (fst (exports.landsatIndices image sensor (VStr index) s))
               = added_band index (fst (exports.landsatIndices image sensor VUndef s)))
    [("L5", "NRVI"); ("L5", "EVI"); ("L5", "SAVI"); ("L5", "GOSAVI");
     ("L7", "NRVI"); ("L7", "EVI"); ("L7", "SAVI"); ("L7", "GOSAVI");
     ("L8", "NRVI"); ("L8", "EVI"); ("L8", "SAVI"); ("L8", "GOSAVI");
     ("S2", "EVI"); ("S2", "SAVI"); ("S2", "GOSAVI");
     ("S2", "NDVI"); ("S2", "NDBI")].
Proof.
  repeat constructor; eexists; reflexivity.
Qed.

(** X12: The four NDVI functions are the single-index NDVI of the index
    functions: [ndviL5], [ndviL7], [ndviL8] and [ndviS2] return what
    [landsatIndices] returns for NDVI on that sensor, [ndviS2] also what
    [sentinel2Indices] returns for [ndvi], and [ndviL5] and [ndviL7] are
    the same function. *)
Theorem ndvi_functions_agree (image : ee) (s : Env) :
  fst (exports.landsatIndices image "L5" (VStr "NDVI") s) = VEE (exports.ndviL5 image)
  /\ fst (exports.landsatIndices image "L7" (VStr "NDVI") s) = VEE (exports.ndviL7 image)
  /\ fst (exports.landsatIndices image "L8" (VStr "NDVI") s) = VEE (exports.ndviL8 image)
  /\ fst (exports.landsatIndices image "S2" (VStr "NDVI") s) = VEE (exports.ndviS2 image)
  /\ exports.sentinel2Indices image (Some "ndvi") = VEE (exports.ndviS2 image)
  /\ exports.ndviL5 image = exports.ndviL7 image
  /\ exports.ndviL5 image <> exports.ndviL8 image.
Proof.
  repeat split; discriminate.
Qed.

(** X13: On Sentinel 2 imagery the two index functions agree on the NDVI,
    NDBI and GOSAVI bands and differ on three others: NDWI is computed
    from (B4, B11) by [landsatIndices] and from (B3, B8) by
    [sentinel2Indices]; SAVI takes L = 0.2 in the one and L = 0.5 in the
    other; the EVI expressions are bracketed differently. *)
Theorem sentinel2_two_index_functions (image : ee) (s : Env) :
  let landsat index := added_band index (fst (exports.landsatIndices image "S2" (VStr index) s)) in
  let sentinel index band := added_band band (exports.sentinel2Indices image (Some index)) in
  (landsat "NDVI" = sentinel "ndvi" "NDVI" /\ is_Some (landsat "NDVI"))
  /\ (landsat "NDBI" = sentinel "ndbi" "NDBI" /\ is_Some (landsat "NDBI"))
  /\ (landsat "GOSAVI" = sentinel "gosavi" "GOSAVI" /\ is_Some (landsat "GOSAVI"))
  /\ band_pair (landsat "NDWI") = Some [VStr "B4"; VStr "B11"]
  /\ band_pair (sentinel "ndwi" "NDWI") = Some [VStr "B3"; VStr "B8"]
  /\ expression_var "L" (landsat "SAVI") = Some (VNum 0.2)
  /\ expression_var "L" (sentinel "savi" "SAVI") = Some (VNum 0.5)
  /\ option_map fst (expression_of (landsat "EVI"))
     = Some "2.5 * ((NIR - RED)) / (NIR + 6 * RED - 7.5 * BLUE + 1)"
  /\ option_map fst (expression_of (sentinel "evi" "EVI"))
     = Some "2.5 * ((NIR - RED) / (NIR + 6 * RED - 7.5 * BLUE + 1))"
  /\ option_map snd (expression_of (landsat "EVI"))
     = option_map snd (expression_of (sentinel "evi" "EVI")).
Proof.
  cbv zeta.
  split; [split; [reflexivity | eexists; reflexivity]|].
  split; [split; [reflexivity | eexists; reflexivity]|].
  split; [split; [reflexivity | eexists; reflexivity]|].
  repeat split.
Qed.

(** ** Mosaics *)

(** X14: [showMosaic] decides only whether the mosaic is shown: the five
    mosaic functions return the same composite whatever it is, add that
    composite as one layer when it is [true] or omitted and nothing
    otherwise, and never print. *)
Theorem mosaics_showMosaic (startDate endDate roi showMosaic : val) (s : Env) :
  Forall (fun mosaic : val -> val -> val -> val -> M val =>
    let '(composite, s') := mosaic startDate endDate roi showMosaic s in
    composite = fst (mosaic startDate endDate roi (VBool false) s)
    /\ is_handle composite = true
    /\ console s' = console s
    /\ export_tasks s' = export_tasks s
    /\ if strict_eq_true (default showMosaic (VBool true)) then
         exists vis name, map_layers s' = (map_layers s ++ [(composite, vis, name)])%list
       else map_layers s' = map_layers s)
    [exports.s2Mosaic; exports.landsat5Mosaic; exports.landsat7Mosaic;
     exports.landsat8Mosaic; exports.modisNdviMosaic].
Proof.
  repeat constructor;
    unfold exports.s2Mosaic, exports.landsat5Mosaic, exports.landsat7Mosaic,
      exports.landsat8Mosaic, exports.modisNdviMosaic;
    destruct showMosaic as [| |[|]| | | | | |]; cbn; run_M;
    repeat split; try reflexivity; do 2 eexists; reflexivity.
Qed.

(** X15: What the region of interest changes.  The Landsat mosaics filter by
    bounds first when a region is given.  [s2Mosaic] adds the
    acquisition-time band to every image only when no region is given:
    with a region it filters by bounds and maps nothing.
    [modisNdviMosaic] ignores the region.  The layers of the Landsat 7
    and Landsat 8 mosaics are titled [L5_Mosaic]. *)
Theorem mosaics_region (startDate endDate roi showMosaic : val) (s : Env) :
  let chain (mosaic : val -> val -> val -> val -> M val) :=
    match fst (mosaic startDate endDate roi showMosaic s) with
    | VEE e => method_chain e
    | _ => []
    end in
  let title (mosaic : val -> val -> val -> val -> M val) :=
    match map_layers (snd (mosaic startDate endDate roi (VBool true)
                             (mkEnv (env_COLOR s) [] [] []))) with
    | [(_, _, name)] => name
    | _ => VUndef
    end in
  chain exports.s2Mosaic
    = (if is_undefined roi then ["filterDate"; "sort"; "map"; "mosaic"]
       else ["filterDate"; "sort"; "filterBounds"; "mosaic"])
  /\ Forall (fun mosaic =>
       chain mosaic = if is_undefined roi then ["filterDate"; "sort"; "mosaic"]
                      else ["filterBounds"; "filterDate"; "sort"; "mosaic"])
       [exports.landsat5Mosaic; exports.landsat7Mosaic; exports.landsat8Mosaic]
  /\ fst (exports.modisNdviMosaic startDate endDate roi showMosaic s)
     = fst (exports.modisNdviMosaic startDate endDate VUndef showMosaic s)
  /\ map title [exports.s2Mosaic; exports.landsat5Mosaic; exports.landsat7Mosaic;
                exports.landsat8Mosaic; exports.modisNdviMosaic]
     = [VStr "S2_Mosaic"; VStr "L5_Mosaic"; VStr "L5_Mosaic"; VStr "L5_Mosaic"; VUndef].
Proof.
  cbv zeta.
  unfold exports.s2Mosaic, exports.landsat5Mosaic, exports.landsat7Mosaic,
    exports.landsat8Mosaic, exports.modisNdviMosaic.
  split; [|split; [|split]].
  - destruct roi, showMosaic as [| |[|]| | | | | |]; reflexivity.
  - repeat constructor; destruct roi, showMosaic as [| |[|]| | | | | |]; reflexivity.
  - destruct showMosaic as [| |[|]| | | | | |]; reflexivity.
  - destruct roi; reflexivity.
Qed.

(** ** The effects of the module as a whole *)

Lemma adds_tasks_mret {A} (a : A) : adds_tasks [] (mret a).
Proof. intros s. exists [], []. destruct s. cbn. now rewrite !app_nil_r. Qed.

Lemma adds_tasks_print (v : val) : adds_tasks [] (print v).
Proof. intros s. exists [v], []. cbn. now rewrite !app_nil_r. Qed.

Lemma adds_tasks_Map_addLayer (obj vis name : val) : adds_tasks [] (Map_addLayer obj vis name).
Proof. intros s. exists [], [(obj, vis, name)]. cbn. now rewrite !app_nil_r. Qed.

Lemma adds_tasks_Export_image_toDrive (params : val) :
  adds_tasks [params] (Export_image_toDrive params).
Proof. intros s. exists [], []. cbn. now rewrite !app_nil_r. Qed.

Lemma adds_tasks_COLOR_get (key : string) : adds_tasks [] (COLOR_get key).
Proof. intros s. exists [], []. destruct s. cbn. now rewrite !app_nil_r. Qed.

Lemma adds_tasks_mbind {A B} (t1 t2 : list val) (m : M A) (k : A -> M B) :
  adds_tasks t1 m -> (forall a, adds_tasks t2 (k a)) -> adds_tasks (t1 ++ t2) (m ≫= k).
Proof.
  intros Hm Hk s. unfold mbind, M_bind.
  destruct (Hm s) as (o1 & l1 & E1). destruct (m s) as [a s1]. cbn [snd] in E1. subst s1.
  destruct (Hk a (mkEnv (env_COLOR s) (console s ++ o1) (map_layers s ++ l1)
                        (export_tasks s ++ t1))) as (o2 & l2 & E2).
  exists (o1 ++ o2)%list, (l1 ++ l2)%list. rewrite E2. cbn. now rewrite !app_assoc.
Qed.

Lemma adds_tasks_quiet_mbind {A B} (m : M A) (k : A -> M B) :
  adds_tasks [] m -> (forall a, adds_tasks [] (k a)) -> adds_tasks [] (m ≫= k).
Proof. apply (adds_tasks_mbind [] []). Qed.

Create HintDb quiet.

#[local] Hint Resolve adds_tasks_mret adds_tasks_print adds_tasks_Map_addLayer
  adds_tasks_COLOR_get : quiet.

Ltac quiet_steps :=
  repeat first
    [ solve [auto with quiet]
    | apply adds_tasks_quiet_mbind; [|intros]
    | match goal with
      | |- adds_tasks [] (if ?c then _ else _) => destruct c
      | |- adds_tasks [] (match ?x with _ => _ end) => destruct x
      | |- adds_tasks [] (let '(_, _) := ?x in _) => destruct x
      end
    | progress cbv beta zeta
    | progress cbn [mapM] ].

(** X16: Every call only adds to the environment: what the console and the
    map held before is still there, in order, the [COLOR] object is the
    same, and nothing is queued for export, except by [exportImg], which
    queues exactly one task: the image under the given file name, with
    scale 30 and at most 1e10 pixels unless given. *)
Theorem calls_only_add (r : request) (s : Env) :
  exists out layers,
    snd (run r s) = mkEnv (env_COLOR s) (console s ++ out) (map_layers s ++ layers)
                          (export_tasks s ++ exported r).
Proof.
  revert s. change (adds_tasks (exported r) (run r)).
  destruct r; cbn [run exported];
    try (unfold exports.exportImg;
         apply (adds_tasks_mbind [_] []); [apply adds_tasks_Export_image_toDrive|];
         intros; apply adds_tasks_mret);
    unfold exports.kmeans, exports.simpleNDVIChangeDetection,
      exports.simpleNDWIChangeDetection, exports.simpleNDBIChangeDetection,
      exports.color, exports.plotRGB, exports.plotNDVI, exports.plotNDWI,
      exports.plotClass, exports.landsatIndices, exports.loadImg,
      exports.toaReflectanceL8, exports.loadL5ByPathRow, exports.loadL7ByPathRow,
      exports.loadL8ByPathRow, exports.s2Mosaic, exports.landsat5Mosaic,
      exports.landsat7Mosaic, exports.landsat8Mosaic, exports.modisNdviMosaic;
    quiet_steps.
Qed.

(** ** Band numbers and component names *)

Lemma to_int_not_nil (n : Z) : Z.to_int n <> Decimal.Pos Decimal.Nil /\ Z.to_int n <> Decimal.Neg Decimal.Nil.
Proof.
  destruct n as [|p|p]; cbn; split; try discriminate;
    intros [= H]; now apply DecimalPos.Unsigned.to_uint_nonnil in H.
Qed.

(** The decimal form of a number reads back as the number. *)
Lemma toString_read_back (n : Z) :
  option_map Z.of_int (NilZero.int_of_string (toString n)) = Some n.
Proof.
  unfold toString. destruct (to_int_not_nil n) as [H1 H2].
  rewrite NilZero.isi by assumption. cbn. now rewrite DecimalZ.of_to.
Qed.

Lemma toString_inj (n m : Z) : toString n = toString m -> n = m.
Proof.
  intros H. pose proof (toString_read_back n) as Hn.
  rewrite H, toString_read_back in Hn. now injection Hn.
Qed.

Lemma append_inj_l (p a b : string) : (p ++ a = p ++ b)%string -> a = b.
Proof. induction p as [|c p IH]; cbn; [easy|]. intros [= H]. auto. Qed.

Lemma length_append (a b : string) :
  String.length (a ++ b) = (String.length a + String.length b)%nat.
Proof. induction a as [|c a IH]; simpl; [reflexivity|]. f_equal. exact IH. Qed.

Lemma append_inj_r (a b q : string) : (a ++ q = b ++ q)%string -> a = b.
Proof.
  intros H.
  assert (L : String.length a = String.length b).
  { apply (f_equal String.length) in H. rewrite !length_append in H. lia. }
  revert b H L. induction a as [|c a IH]; intros [|d b]; cbn; try discriminate; [easy|].
  intros [= -> H] [= L]. f_equal. auto.
Qed.

(** X17: [toaReflectance] names its band after the band number, so two band
    numbers give two names and two selected bands; this is stated of
    the band numbers JavaScript holds exactly, the safe integers, on
    which [toString] is what JavaScript prints.  [toaRadiance] names
    its band [TOA_Radiance] for every band number, so converting a
    second band of the same image adds a second band under the same
    name. *)
Theorem toa_band_names (image : ee) (band band' : Z) :
  isSafeInteger band = true ->
  isSafeInteger band' = true ->
  band <> band' ->
  band_name (VEE (exports.toaReflectance image band))
    <> band_name (VEE (exports.toaReflectance image band'))
  /\ ee_selected (exports.toaReflectance (Handle "img") band)
     <> ee_selected (exports.toaReflectance (Handle "img") band')
  /\ added_band_names (VEE (exports.toaRadiance image band))
     = added_band_names (VEE (exports.toaRadiance (exports.toaRadiance image band) band')).
Proof.
  intros _ _ Hne. split; [|split; [|reflexivity]].
  - cbn. intros [= H]. apply append_inj_l in H. apply append_inj_r in H.
    now apply toString_inj in H.
  - cbn. intros [= H]. apply append_inj_l in H. now apply toString_inj in H.
Qed.

Lemma toa_band_names_witness :
  isSafeInteger 10 = true
  /\ isSafeInteger 11 = true
  /\ (10 <> 11)%Z
  /\ band_name (VEE (exports.toaReflectance (Handle "img") 10))
     <> band_name (VEE (exports.toaReflectance (Handle "img") 11))
  /\ ee_selected (exports.toaReflectance (Handle "img") 10)
     <> ee_selected (exports.toaReflectance (Handle "img") 11)
  /\ added_band_names (VEE (exports.toaRadiance (Handle "img") 10))
     = added_band_names
         (VEE (exports.toaRadiance (exports.toaRadiance (Handle "img") 10) 11)).
Proof.
  split; [reflexivity|]. split; [reflexivity|]. split; [lia|].
  apply (toa_band_names (Handle "img") 10 11); [reflexivity | reflexivity | lia].
Defined.

Lemma pc_names_NoDup (k n : nat) :
  NoDup (map (fun i : nat => VStr ("pc" ++ toString (Z.of_nat i + 1))) (seq k n)).
Proof.
  revert k. induction n as [|n IH]; intros k; cbn [seq map]; constructor; [|apply IH].
  rewrite list_elem_of_In, in_map_iff. intros (j & [= H] & Hj).
  apply append_inj_l, toString_inj in H. apply in_seq in Hj. lia.
Qed.

(** X18: The components [pca] names: as many as [nbands] says, 12 when it is
    omitted and none when it is not positive, whatever bands the image
    has; they are [pc1], [pc2], ... in order, all different. *)
Theorem pca_component_names (image : ee) (nbands : option Z) (scale maxPixels : val) :
  let names := pca_names (exports.pca image nbands scale maxPixels) in
  let n := Z.to_nat (from_option id 12%Z nbands) in
  length names = n
  /\ NoDup names
  /\ (forall i : nat,
        names !! i = if (i <? n)%nat then Some (VStr ("pc" ++ toString (Z.of_nat i + 1)))
                     else None)
  /\ pca_names (exports.pca image None scale maxPixels)
     = map VStr ["pc1"; "pc2"; "pc3"; "pc4"; "pc5"; "pc6";
                 "pc7"; "pc8"; "pc9"; "pc10"; "pc11"; "pc12"].
Proof.
  cbv zeta. unfold exports.pca, pca_names. cbn [invoke].
  destruct nbands as [n|]; cbn [from_option id];
    (split; [now rewrite length_map, length_seq|]);
    (split; [apply pc_names_NoDup|]);
    (split; [|reflexivity]); intros i.
  all: rewrite list_lookup_fmap.
  all: match goal with
       | |- context [(?j <? ?k)%nat] => destruct (Nat.ltb_spec j k) as [Hi|Hi]
       end.
  all: try (rewrite lookup_seq_lt by assumption; reflexivity).
  all: rewrite lookup_seq_ge by assumption; reflexivity.
Qed.

(** ** The land surface temperature chain *)

(** X19: The bands line up along the chain of the surface temperature: each
    function selects by name the bands that an earlier function of the
    chain adds under that name, or a band B.. of the input, and no
    other.  [brightnessTempL5_K], [brightnessTempL7_K] and
    [brightnessTempL8_K] select the [TOA_Radiance] band [toaRadiance]
    adds, and only it; [propVeg] selects the [NDVI] band of the NDVI
    functions, and only it; [landSurfaceEmissivity] selects the
    [propVeg] band, and only it; [landSurfaceTemperature] selects [LSE],
    [Brightness_Temperature] and band B10, and only them. *)
Theorem surface_temperature_chain (img : string) (band : Z) (single : val) :
  let input := Handle img in
  let adds (e : ee) := added_band_names (VEE e) in
  let selects (e : ee) (names : list string) :=
    all_in (ee_selected e) names = true /\ all_in names (ee_selected e) = true in
  adds (exports.toaRadiance input band) = [Some "TOA_Radiance"]
  /\ Forall (fun brightness : ee -> ee =>
               selects (brightness input) ["TOA_Radiance"]
               /\ ee_selected (brightness input) = ["TOA_Radiance"]
               /\ adds (brightness input) = [Some "Brightness_Temperature"])
       [exports.brightnessTempL5_K; exports.brightnessTempL7_K;
        fun image => exports.brightnessTempL8_K image single]
  /\ Forall (fun ndvi : ee -> ee => adds (ndvi input) = [Some "NDVI"])
       [exports.ndviL5; exports.ndviL7; exports.ndviL8; exports.ndviS2]
  /\ selects (exports.propVeg input) ["NDVI"]
  /\ adds (exports.propVeg input) = [Some "propVeg"]
  /\ selects (exports.landSurfaceEmissivity input) ["propVeg"]
  /\ adds (exports.landSurfaceEmissivity input) = [Some "LSE"]
  /\ selects (exports.landSurfaceTemperature input)
       ["LSE"; "Brightness_Temperature"; "B10"]
  /\ adds (exports.landSurfaceTemperature input) = [Some "LST"].
Proof.
  cbv zeta. split; [reflexivity|]. split.
  { repeat constructor; destruct single; reflexivity. }
  split; [repeat constructor|]. repeat split.
Qed.

(** ** Clustering *)

(** X20: A missing region does not stop [kmeans]: it prints its error and
    goes on to sample with an undefined region.  In every case it
    returns the clustered image and adds two layers, the outline of the
    region and the clusters in random colours. *)
Theorem kmeans_missing_region (image : ee) (roi numClusters scale numPixels : val) (s : Env) :
  let '(result, s') := exports.kmeans image roi numClusters scale numPixels s in
  (exists clusterer, result = VEE (image |> invoke "cluster" [VEE clusterer])
     /\ exists training, outer_call clusterer
                         = Some (Static "ee.Clusterer.wekaKMeans" [default numClusters (VNum 15)],
                                 "train", [VEE training])
        /\ outer_call training
           = Some (image, "sample",
                   [VObj [("region", roi); ("scale", default scale (VNum 30));
                          ("numPixels", default numPixels (VNum 5000))]]))
  /\ console s' =
     (console s ++
      if is_undefined roi then
        [VStr "Error: You need to define and pass a roi as argument to collect the samples for the classfication process."]
      else [])%list
  /\ (exists outline clusters,
        map_layers s' = (map_layers s ++ [(outline, VObj [], VStr "roi_kmeans");
                                          (VEE clusters, VObj [], VStr "clusters")])%list
        /\ outer_call clusters
           = match result with
             | VEE r => Some (r, "randomVisualizer", [])
             | _ => None
             end)
  /\ export_tasks s' = export_tasks s.
Proof.
  unfold exports.kmeans.
  destruct roi; run_M; rewrite <- ?app_assoc, ?app_nil_r;
    (split; [eexists; split; [reflexivity|]; eexists; split; reflexivity|]);
    (split; [reflexivity|]);
    (split; [do 2 eexists; split; reflexivity | reflexivity]).
Qed.

(** ** Loading an image for a year out of range *)

(** X3: A year before 1985 is reported but not refused: [loadImg] prints
    [Error: Wrong year parameter] and still returns an image, taken
    from the collection named by the caller's own string.  Only then,
    with the collection [TOA] and [cloudFree] true or omitted, is the
    result the median of the cloud-masked collection, the mask being
    that of [cloudMask]. *)
Theorem loadImg_year_out_of_range (collection : option string) (year : Z)
    (roi cloudFree : val) (s : Env) :
  (year < 1985)%Z ->
  let name := from_option id "TOA" collection in
  let '(result, s') := exports.loadImg collection (Some year) roi cloudFree s in
  (exists tail, console s' = (console s ++ VStr "Error: Wrong year parameter" :: tail)%list)
  /\ match result with
     | VEE e => mentions name e = true
     | _ => False
     end
  /\ if strict_eq_true (default cloudFree (VBool true)) && String.eqb name "TOA" then
       exists filtered,
         result = VEE (ee_ImageCollection (VEE filtered)
                       |> invoke "map" [VFun ["image"] (VEE (exports.cloudMask (Handle "image")))]
                       |> invoke "median" [])
     else
       exists filtered, result = VEE (ee_Image (VEE (filtered |> invoke "first" []))).
Proof.
  intros Hy. cbv zeta. unfold exports.loadImg.
  replace (2013 <=? year)%Z with false by (symmetry; apply Z.leb_gt; lia).
  replace (1985 <=? year)%Z with false by (symmetry; apply Z.leb_gt; lia).
  rewrite andb_false_r. run_M.
  unfold mentions.
  destruct collection as [c|]; cbn [from_option id];
    (split; [eexists; rewrite <- app_assoc; reflexivity|]).
  - destruct (strict_eq_true (default cloudFree (VBool true)) && String.eqb c "TOA");
      (split; [|eexists; reflexivity]); cbn;
      destruct roi; cbn; rewrite String.eqb_refl; reflexivity.
  - destruct cloudFree as [| |[|]| | | | | |]; cbn;
      (split; [|eexists; reflexivity]); destruct roi; reflexivity.
Qed.

Lemma loadImg_year_out_of_range_witness :
  (1980 < 1985)%Z
  /\ let '(result, s') := exports.loadImg None (Some 1980%Z) VUndef VUndef loaded in
     (exists tail, console s' = (console loaded ++ VStr "Error: Wrong year parameter" :: tail)%list)
     /\ match result with
        | VEE e => mentions "TOA" e = true
        | _ => False
        end
     /\ exists filtered,
          result = VEE (ee_ImageCollection (VEE filtered)
                        |> invoke "map" [VFun ["image"] (VEE (exports.cloudMask (Handle "image")))]
                        |> invoke "median" []).
Proof.
  split; [lia|].
  apply (loadImg_year_out_of_range None 1980 VUndef VUndef loaded). lia.
Defined.

(** ** Radiometric normalization *)

(** X21: The accumulator of [radcal] keeps its shape: the dictionary a step
    returns has exactly the six keys the step reads from its
    accumulator, so the step can be iterated; the image, the mask, the
    band count and the rectangle are handed on as read, one triple is
    added to the coefficients and one band to the normalized image. *)
Theorem radcal_accumulator (current prev : string) :
  let acc := ee_Dictionary (VEE (Handle prev)) in
  let next := radcal (VEE (Handle current)) (VEE (Handle prev)) in
  dictionary_keys next = ["image"; "ncmask"; "nbands"; "rect"; "coeffs"; "normalized"]
  /\ all_in (ee_reads next) (dictionary_keys next) = true
  /\ all_in (dictionary_keys next) (ee_reads next) = true
  /\ dictionary_entry "image" next = Some (VEE (ee_Image (VEE (acc |> get "image"))))
  /\ dictionary_entry "ncmask" next = Some (VEE (ee_Image (VEE (acc |> get "ncmask"))))
  /\ dictionary_entry "nbands" next = Some (VEE (ee_Number (VEE (acc |> get "nbands"))))
  /\ dictionary_entry "rect" next = Some (VEE (Static "ee.Geometry" [VEE (acc |> get "rect")]))
  /\ (exists triple, dictionary_entry "coeffs" next
        = Some (VEE (ee_List (VEE (acc |> get "coeffs")) |> invoke "add" [VEE (ee_List (VArr triple))]))
        /\ length triple = 3%nat)
  /\ (exists band, dictionary_entry "normalized" next
        = Some (VEE (ee_Image (VEE (acc |> get "normalized")) |> addBands band))).
Proof.
  cbv zeta. repeat split; try reflexivity.
  - eexists. split; reflexivity.
  - eexists. reflexivity.
Qed.

(** X22: [radcalbatch] cannot complete: it hands [imad] to [iterate], the
    client applies [imad] to the placeholders of the iteration, [imad]
    calls [imad1], and [imad1] throws on the result of [geneiv].  The
    other two functions it iterates, [radcal] and [addcoeffs], have a
    body. *)
Theorem radcalbatch_throws (current prev : val) :
  radcalbatch current prev = Throw TypeError
  /\ iteration imad = Throw TypeError
  /\ (exists body, iteration (fun current prev => mret (radcal current prev))
                   = Normal (VFun ["current"; "prev"] (VEE body)))
  /\ (exists body, iteration (fun current prev => mret (addcoeffs current prev))
                   = Normal (VFun ["current"; "prev"] (VEE body))).
Proof.
  split; [reflexivity|]. split; [reflexivity|].
  split; eexists; reflexivity.
Qed.

(** ** Classification *)

(** X23: The three supervised classifiers classify the input image and are
    trained on a sample of that same image over the training data, with
    the class field as the only property.  [svm] and [cart] sample at
    the given scale, 30 by default; [rf] has no scale and always samples
    at 30, so with the defaults all three are trained on the same
    sample. *)
Theorem classifiers_training_sample (image : ee)
    (trainingData fieldName kernelType scale numOfTrees : val) :
  let sample scale := Some (VEE (image |> invoke "sampleRegions"
    [VObj [("collection", trainingData); ("properties", VArr [fieldName]);
           ("scale", scale)]])) in
  training_sample (exports.svm image trainingData fieldName kernelType scale)
    = sample (default scale (VNum 30))
  /\ training_sample (exports.cart image trainingData fieldName scale)
    = sample (default scale (VNum 30))
  /\ training_sample (exports.rf image trainingData fieldName numOfTrees) = sample (VNum 30)
  /\ Forall (fun classified => exists trained,
               outer_call classified = Some (image, "classify", [VEE trained]))
       [exports.svm image trainingData fieldName kernelType scale;
        exports.cart image trainingData fieldName scale;
        exports.rf image trainingData fieldName numOfTrees].
Proof.
  cbv zeta. repeat split; repeat constructor; eexists; reflexivity.
Qed.
